(** * shasta_sdk: a thin REST client with a rate-limit retry loop

    Shallow embedding of [shasta_sdk.py].  The module talks to the outside
    world in three ways: [requests.request] (an HTTP round trip),
    [time.sleep] and [print].  The embedding records these as events in a
    log, answers requests from an explicit network, and threads the log
    through a state-and-exception monad. *)

From stdpp Require Import gmap strings list fin_maps pretty.

#[local] Open Scope Z_scope.

(** ** Python values *)

(** The values that the SDK passes through to [requests] untouched:
    query parameters and JSON payloads are dicts from str to such values. *)
#[warnings="-register-all"]
Inductive PyVal : Type :=
| PNone
| PBool (b : bool)
| PInt (z : Z)
| PStr (s : string)
| PList (l : list PyVal)
| PDict (d : gmap string PyVal).

(** Python truthiness, as tested by [if search_query:]. *)
Definition truthy (v : PyVal) : bool :=
  match v with
  | PNone => false
  | PBool b => b
  | PInt z => negb (z =? 0)
  | PStr s => negb (String.eqb s "")
  | PList l => negb (Nat.eqb (length l) 0)
  | PDict d => negb (Nat.eqb (size d) 0)
  end.

(** ** Requests, responses, events *)

(** The keyword arguments of [requests.request] that the SDK uses;
    [None] is the Python default of an argument left out. *)
Record Request : Type := mkRequest {
  method : string;
  url : string;
  headers : option (gmap string PyVal);
  params : option (gmap string PyVal);
  json : option (gmap string PyVal)
}.

(** A response: its [status_code] and what [response.json()] evaluates to
    ([None] when the body does not parse, in which case [json()] raises). *)
Record Response : Type := mkResponse {
  status_code : Z;
  json_body : option PyVal
}.

Inductive Event : Type :=
| EvRequest (rq : Request)
| EvPrint (line : string)
| EvSleep (seconds : Z).

(** Exceptions that can leave the SDK's functions. *)
Inductive Exn : Type :=
| HTTPError (response : Response)   (* from [response.raise_for_status()] *)
| Exception (msg : string)          (* line 45 of the source *)
| RequestException                  (* [requests.request] itself failed *)
| JSONDecodeError.                  (* [response.json()] failed *)

Inductive Outcome (A : Type) : Type :=
| Return (a : A)
| Raise (e : Exn)
| OutOfFuel.
Arguments Return {A} a.
Arguments Raise {A} e.
Arguments OutOfFuel {A}.

(** The network answers the [n]-th request sent since the start of the log
    (counting from 0); [None] is a transport failure, which makes
    [requests.request] raise. *)
Definition Network : Type := nat → Request → option Response.

Definition requests_of (log : list Event) : list Request :=
  omap (λ ev, match ev with EvRequest rq => Some rq | _ => None end) log.

Definition sleeps_of (log : list Event) : list Z :=
  omap (λ ev, match ev with EvSleep s => Some s | _ => None end) log.

Definition sent (log : list Event) : nat := length (requests_of log).

(** ** The monad *)

Definition IO (A : Type) : Type := Network → list Event → Outcome A * list Event.

#[global] Instance IO_ret : MRet IO := λ A a _ log, (Return a, log).

#[global] Instance IO_bind : MBind IO := λ A B f m net log,
  match m net log with
  | (Return a, log') => f a net log'
  | (Raise e, log') => (Raise e, log')
  | (OutOfFuel, log') => (OutOfFuel, log')
  end.

Definition raise {A : Type} (e : Exn) : IO A := λ _ log, (Raise e, log).

Definition out_of_fuel {A : Type} : IO A := λ _ log, (OutOfFuel, log).

Definition emit (ev : Event) : IO unit := λ _ log, (Return (), log ++ [ev]).

(** ** The primitives of [requests], [time] and the builtins *)

Definition requests_request (rq : Request) : IO Response := λ net log,
  match net (sent log) rq with
  | Some response => (Return response, log ++ [EvRequest rq])
  | None => (Raise RequestException, log ++ [EvRequest rq])
  end.

Definition time_sleep (seconds : Z) : IO unit := emit (EvSleep seconds).

Definition print (line : string) : IO unit := emit (EvPrint line).

(** [Response.raise_for_status] of the [requests] library: an [HTTPError]
    for a client error (400..499) or a server error (500..599), nothing
    otherwise. *)
Definition raise_for_status (response : Response) : IO unit :=
  let s := status_code response in
  if ((400 <=? s) && (s <? 500)) || ((500 <=? s) && (s <? 600))
  then raise (HTTPError response)
  else mret ().

Definition response_json (response : Response) : IO PyVal :=
  match json_body response with
  | Some v => mret v
  | None => raise JSONDecodeError
  end.

(** ** Constants *)

Definition BASE_URL : string := "https://api-stg.shastacloud.com".
Definition MSP_ORG_ID : string := "317".
Definition BEARER_TOKEN : string := "your_bearer_token_here".
Definition MAX_RETRIES : Z := 5.
Definition RETRY_BACKOFF_FACTOR : Z := 2.

(** A dict display [{k1: v1, ..., kn: vn}]: the items are inserted from
    left to right. *)
Definition dict (items : list (string * PyVal)) : gmap string PyVal :=
  foldl (λ d kv, <[kv.1 := kv.2]> d) ∅ items.

Definition HEADERS : gmap string PyVal :=
  dict [("Authorization", PStr ("Bearer " +:+ BEARER_TOKEN));
        ("Content-Type", PStr "application/json")].

(** ** The retrying executor *)

Definition rate_limited_msg (wait_time : Z) : string :=
  "Rate limited. Retrying in " +:+ pretty wait_time +:+ " seconds...".

Definition failed_msg : string :=
  "Failed after " +:+ pretty MAX_RETRIES +:+ " retries due to rate limiting.".

(** The [while retries <= MAX_RETRIES] loop with its [raise] after the
    loop; one unit of fuel per evaluation of the loop condition. *)
Fixpoint retry_loop (fuel : nat) (rq : Request) (retries : Z) : IO Response :=
  match fuel with
  | O => out_of_fuel
  | S fuel' =>
      if retries <=? MAX_RETRIES then
        response ← requests_request rq;
        if status_code response =? 429 then
          let wait_time := RETRY_BACKOFF_FACTOR ^ retries in
          print (rate_limited_msg wait_time);;
          time_sleep wait_time;;
          retry_loop fuel' rq (retries + 1)
        else
          raise_for_status response;;
          mret response
      else raise (Exception failed_msg)
  end.

Definition handle_request_with_retries_fuel (fuel : nat)
    (method url : string) (headers params json : option (gmap string PyVal))
    : IO Response :=
  retry_loop fuel (mkRequest method url headers params json) 0.

(** Fuel for [MAX_RETRIES + 1] passes through the loop body and the final
    failing test of the loop condition; [retry_loop_fuel_mono] below shows
    that more fuel changes nothing. *)
Definition loop_fuel : nat := Z.to_nat (MAX_RETRIES + 2).

Definition handle_request_with_retries
    (method url : string) (headers params json : option (gmap string PyVal))
    : IO Response :=
  handle_request_with_retries_fuel loop_fuel method url headers params json.

(** ** The resource functions *)

(** Arguments that a function only passes through are arbitrary Python
    values; ids that are formatted into the URL are the [int]s that the
    docstrings announce.  Python's default arguments are the [default_*]
    constants. *)
Definition default_offset : PyVal := PInt 0.
Definition default_limit : PyVal := PInt 10.
Definition default_order : PyVal := PStr "DESC".
Definition default_order_by_org : PyVal := PStr "orgId".
Definition default_order_by_venue : PyVal := PStr "venueId".

Definition get_business_orgs (offset limit order order_by : PyVal) : IO PyVal :=
  let url := BASE_URL +:+ "/organization/" +:+ MSP_ORG_ID +:+ "/child" in
  let params := dict [("offset", offset); ("limit", limit);
                      ("order", order); ("orderBy", order_by)] in
  response ← handle_request_with_retries "GET" url (Some HEADERS) (Some params) None;
  response_json response.

Definition create_business_org
    (org_display_name org_type_id parent_org_id address : PyVal) : IO PyVal :=
  let url := BASE_URL +:+ "/organization" in
  let payload := dict [
    ("orgDisplayName", org_display_name);
    ("orgTypeId", org_type_id);
    ("parentOrgId", parent_org_id);
    ("phone", PStr "");
    ("notes", PStr "");
    ("billingRecipients", PStr "");
    ("orgAddress", PDict (dict [("addressLine", address)]));
    ("billingAddress", PDict (dict [("addressLine", address)]))] in
  response ← handle_request_with_retries "POST" url (Some HEADERS) None (Some payload);
  response_json response.

Definition find_business_org
    (search_query offset limit order order_by : PyVal) : IO PyVal :=
  let url := BASE_URL +:+ "/organization/" +:+ MSP_ORG_ID +:+ "/child" in
  let params := dict [("search", search_query); ("offset", offset);
                      ("limit", limit); ("order", order);
                      ("orderBy", order_by)] in
  response ← handle_request_with_retries "GET" url (Some HEADERS) (Some params) None;
  response_json response.

Definition remove_business_org (org_id : Z) : IO Z :=
  let url := BASE_URL +:+ "/organization/" +:+ pretty org_id in
  response ← handle_request_with_retries "DELETE" url (Some HEADERS) None None;
  mret (status_code response).

Definition get_venues
    (org_id offset limit order order_by search_query : PyVal) : IO PyVal :=
  let url := BASE_URL +:+ "/venues" in
  let params := dict [("orgId", org_id); ("offset", offset);
                      ("limit", limit); ("order", order);
                      ("orderBy", order_by)] in
  let params :=
    if truthy search_query then <["search" := search_query]> params
    else params in
  response ← handle_request_with_retries "GET" url (Some HEADERS) (Some params) None;
  response_json response.

Definition create_venue (org_id venue_name address : PyVal) : IO PyVal :=
  let url := BASE_URL +:+ "/venues" in
  let payload := dict [
    ("orgId", org_id);
    ("parentVenueId", PInt 0);
    ("venueName", venue_name);
    ("state", PInt 1);
    ("venueType", PInt 1);
    ("venueAddress", PDict (dict [("addressLine", address)]));
    ("shippingAddress", PDict (dict [("addressLine", address)]))] in
  response ← handle_request_with_retries "POST" url (Some HEADERS) None (Some payload);
  response_json response.

Definition remove_venue (venue_id : Z) : IO Z :=
  let url := BASE_URL +:+ "/venues/" +:+ pretty venue_id in
  response ← handle_request_with_retries "DELETE" url (Some HEADERS) None None;
  mret (status_code response).

Definition get_infrastructure_by_org (org_id : Z) : IO PyVal :=
  let url := BASE_URL +:+ "/infrastructure/organization/" +:+ pretty org_id in
  response ← handle_request_with_retries "GET" url (Some HEADERS) None None;
  response_json response.

Definition get_infrastructure_by_venue (venue_id : Z) : IO PyVal :=
  let url := BASE_URL +:+ "/infrastructure/venue/" +:+ pretty venue_id in
  response ← handle_request_with_retries "GET" url (Some HEADERS) None None;
  response_json response.

Definition get_infra_types : IO PyVal :=
  let url := BASE_URL +:+ "/infrastructure/infratype" in
  let params := dict [("orgId", PStr MSP_ORG_ID)] in
  response ← handle_request_with_retries "GET" url (Some HEADERS) (Some params) None;
  response_json response.

Definition add_infrastructure
    (org_id venue_id infra_type_id mac_address infra_display_name : PyVal)
    : IO PyVal :=
  let url := BASE_URL +:+ "/infrastructure" in
  let payload := dict [
    ("venueId", venue_id);
    ("orgId", org_id);
    ("infraTypeId", infra_type_id);
    ("macAddress", mac_address);
    ("serialNumber", PStr "");
    ("assetTag", PStr "");
    ("infraDisplayName", infra_display_name);
    ("sourceId", PInt 1);
    ("realInfra", PBool false)] in
  response ← handle_request_with_retries "POST" url (Some HEADERS) None (Some payload);
  response_json response.

Definition remove_infrastructure (infra_id : Z) : IO Z :=
  let url := BASE_URL +:+ "/infrastructure/" +:+ pretty infra_id in
  response ← handle_request_with_retries "DELETE" url (Some HEADERS) None None;
  mret (status_code response).

(** ** Traces and fixtures used in the statements *)

(** What one rate-limited pass through the loop body leaves in the log. *)
Definition backoff_round (rq : Request) (retries : Z) : list Event :=
  [EvRequest rq;
   EvPrint (rate_limited_msg (RETRY_BACKOFF_FACTOR ^ retries));
   EvSleep (RETRY_BACKOFF_FACTOR ^ retries)].

(** [k] consecutive rate-limited passes, the first with counter [retries]. *)
Fixpoint backoff_rounds (rq : Request) (retries : Z) (k : nat) : list Event :=
  match k with
  | O => []
  | S k' => backoff_round rq retries ++ backoff_rounds rq (retries + 1) k'
  end.

(** The delays [RETRY_BACKOFF_FACTOR ^ i] for [i] in [0..k-1]. *)
Definition backoff_delays (k : nat) : list Z :=
  (λ i : nat, RETRY_BACKOFF_FACTOR ^ Z.of_nat i) <$> seq 0 k.

(** The status classes of the claims. *)
Definition is_success (s : Z) : Prop := 200 ≤ s < 300.
Definition is_http_error (s : Z) : Prop := 400 ≤ s < 600.

(** A network that answers with the given statuses in turn (each with a
    JSON [null] body) and fails at the transport level afterwards. *)
Definition net_of_statuses (statuses : list Z) : Network :=
  λ n _, (λ s, mkResponse s (Some PNone)) <$> statuses !! n.

(** A network that answers every request with the same response. *)
Definition net_always (response : Response) : Network :=
  λ _ _, Some response.

Definition sample_request : Request :=
  mkRequest "GET" (BASE_URL +:+ "/venues") (Some HEADERS) None None.

(** What a finished call of the executor guarantees about its outcome
    [out] and the events [evs] that it appended to [log], when its loop
    counter started at [retries]. *)
Definition executor_post (net : Network) (rq : Request) (retries : Z)
    (log evs : list Event) (out : Outcome Response) : Prop :=
  match out with
  | Return r =>
      net (sent log + sent evs - 1)%nat rq = Some r
      ∧ status_code r ≠ 429 ∧ ¬ is_http_error (status_code r)
  | Raise (HTTPError r) =>
      net (sent log + sent evs - 1)%nat rq = Some r
      ∧ status_code r ≠ 429 ∧ is_http_error (status_code r)
  | Raise (Exception msg) =>
      msg = failed_msg ∧ Z.of_nat (sent evs) = Z.max 0 (MAX_RETRIES + 1 - retries)
  | Raise RequestException =>
      net (sent log + sent evs - 1)%nat rq = None
  | Raise JSONDecodeError => False
  | OutOfFuel => False
  end.

#[global] Instance is_http_error_dec s : Decision (is_http_error s).
Proof. unfold is_http_error. apply _. Defined.

(** [sends m rq]: whatever the network and the log so far, running [m]
    only appends to the log, the first thing it does is to send [rq], and
    every request it sends is [rq]. *)
Definition sends {A : Type} (m : IO A) (rq : Request) : Prop :=
  ∀ (net : Network) (log : list Event), ∃ evs,
    (m net log).2 = log ++ evs
    ∧ head evs = Some (EvRequest rq)
    ∧ requests_of evs = replicate (sent evs) rq.

(** ** The script entry point and further vocabulary *)

(** [try: body / except Exception as e: handler(e)].  Every exception of
    [Exn] is a subclass of Python's [Exception], so the handler sees them
    all. *)
Definition try_except {A : Type} (body : IO A) (handler : Exn → IO A) : IO A :=
  λ net log,
    match body net log with
    | (Raise e, log') => handler e net log'
    | other => other
    end.

Section main.
(** [str] of a value and of an exception of the [requests] library are
    left to the Python runtime and the library; [str(Exception(msg))] is
    [msg]. *)
Context (str_of_value : PyVal → string) (str_of_library_error : Exn → string).

Definition str_of_exn (e : Exn) : string :=
  match e with
  | Exception msg => msg
  | _ => str_of_library_error e
  end.

(** The body of [if __name__ == "__main__":]. *)
Definition main : IO unit :=
  try_except
    (orgs ← get_business_orgs default_offset default_limit default_order
              default_order_by_org;
     print ("Business Orgs: " +:+ str_of_value orgs))
    (λ e, print ("An error occurred: " +:+ str_of_exn e)).
End main.

Definition prints_of (log : list Event) : list string :=
  omap (λ ev, match ev with EvPrint line => Some line | _ => None end) log.

(** The seconds slept in total. *)
Definition total_sleep (log : list Event) : Z :=
  foldr Z.add 0 (sleeps_of log).

(** The calls of the functions that return [response.json()], and of those
    that return [response.status_code]. *)
Definition json_endpoints (a b c d e f : PyVal) (id : Z) : list (IO PyVal) :=
  [get_business_orgs a b c d;
   create_business_org a b c d;
   find_business_org a b c d e;
   get_venues a b c d e f;
   create_venue a b c;
   get_infrastructure_by_org id;
   get_infrastructure_by_venue id;
   get_infra_types;
   add_infrastructure a b c d e].

Definition remove_endpoints (id : Z) : list (IO Z) :=
  [remove_business_org id; remove_venue id; remove_infrastructure id].

(** The answers to the requests number [n], [n+1], ..., [n+k-1] are all
    rate-limited. *)
Definition rate_limited_from (net : Network) (rq : Request) (n k : nat) : Prop :=
  ∀ i, (i < k)%nat →
    ∃ ri, net (n + i)%nat rq = Some ri ∧ status_code ri = 429.

(** * Properties *)

(** ** Logs and the monad *)

Lemma requests_of_app l1 l2 :
  requests_of (l1 ++ l2) = requests_of l1 ++ requests_of l2.
Proof. apply omap_app. Qed.

Lemma sleeps_of_app l1 l2 :
  sleeps_of (l1 ++ l2) = sleeps_of l1 ++ sleeps_of l2.
Proof. apply omap_app. Qed.

Lemma sent_app l1 l2 : sent (l1 ++ l2) = (sent l1 + sent l2)%nat.
Proof. unfold sent. by rewrite requests_of_app, length_app. Qed.

Lemma bind_Return {A B} (m : IO A) (f : A → IO B) net log a log' :
  m net log = (Return a, log') → (m ≫= f) net log = f a net log'.
Proof. intros H. unfold mbind, IO_bind. by rewrite H. Qed.

Lemma bind_Raise {A B} (m : IO A) (f : A → IO B) net log e log' :
  m net log = (Raise e, log') → (m ≫= f) net log = (Raise e, log').
Proof. intros H. unfold mbind, IO_bind. by rewrite H. Qed.

Lemma bind_OutOfFuel {A B} (m : IO A) (f : A → IO B) net log log' :
  m net log = (OutOfFuel, log') → (m ≫= f) net log = (OutOfFuel, log').
Proof. intros H. unfold mbind, IO_bind. by rewrite H. Qed.

Lemma raise_for_status_error r net log :
  is_http_error (status_code r) →
  raise_for_status r net log = (Raise (HTTPError r), log).
Proof.
  unfold is_http_error, raise_for_status, raise. intros Hs.
  destruct (_ || _) eqn:E; [done|].
  apply orb_false_elim in E as [E1 E2].
  apply andb_false_iff in E1, E2. lia.
Qed.

Lemma raise_for_status_pass r net log :
  ¬ is_http_error (status_code r) →
  raise_for_status r net log = (Return (), log).
Proof.
  unfold is_http_error, raise_for_status, raise. intros Hs.
  destruct (_ || _) eqn:E; [|done].
  apply orb_true_iff in E. rewrite !andb_true_iff in E. lia.
Qed.

Section retry_loop.
Context (net : Network) (rq : Request).

Lemma retry_loop_rate_limited fuel retries log r :
  retries ≤ MAX_RETRIES →
  net (sent log) rq = Some r →
  status_code r = 429 →
  retry_loop (S fuel) rq retries net log
  = retry_loop fuel rq (retries + 1) net (log ++ backoff_round rq retries).
Proof.
  intros Hle Hnet Hs. simpl.
  rewrite (proj2 (Z.leb_le _ _) Hle).
  unfold mbind, IO_bind, requests_request. rewrite Hnet, Hs. simpl.
  unfold backoff_round. by rewrite <-!app_assoc.
Qed.

Lemma retry_loop_answered fuel retries log r :
  retries ≤ MAX_RETRIES →
  net (sent log) rq = Some r →
  status_code r ≠ 429 →
  retry_loop (S fuel) rq retries net log
  = (raise_for_status r ≫= λ _, mret r) net (log ++ [EvRequest rq]).
Proof.
  intros Hle Hnet Hs. simpl.
  rewrite (proj2 (Z.leb_le _ _) Hle).
  unfold mbind at 1, IO_bind at 1, requests_request. rewrite Hnet.
  by rewrite (proj2 (Z.eqb_neq _ _) Hs).
Qed.

Lemma retry_loop_transport fuel retries log :
  retries ≤ MAX_RETRIES →
  net (sent log) rq = None →
  retry_loop (S fuel) rq retries net log
  = (Raise RequestException, log ++ [EvRequest rq]).
Proof.
  intros Hle Hnet. simpl.
  rewrite (proj2 (Z.leb_le _ _) Hle).
  unfold mbind, IO_bind, requests_request. by rewrite Hnet.
Qed.

Lemma retry_loop_exhausted fuel retries log :
  MAX_RETRIES < retries →
  retry_loop (S fuel) rq retries net log = (Raise (Exception failed_msg), log).
Proof.
  intros Hlt. simpl.
  by rewrite (proj2 (Z.leb_gt _ _) Hlt).
Qed.
Lemma sent_backoff_round retries : sent (backoff_round rq retries) = 1%nat.
Proof. reflexivity. Qed.

Lemma requests_of_backoff_rounds k retries :
  requests_of (backoff_rounds rq retries k) = replicate k rq.
Proof.
  revert retries. induction k as [|k IH]; intros retries; [done|].
  simpl. by rewrite IH.
Qed.

Lemma sleeps_of_backoff_rounds k retries :
  sleeps_of (backoff_rounds rq retries k)
  = (λ i : nat, RETRY_BACKOFF_FACTOR ^ (retries + Z.of_nat i)) <$> seq 0 k.
Proof.
  revert retries. induction k as [|k IH]; intros retries; [done|].
  simpl. rewrite IH, Z.add_0_r. f_equal.
  rewrite <-fmap_S_seq, <-list_fmap_compose.
  apply list_fmap_ext. intros _ i _. simpl. f_equal. lia.
Qed.

(** [k] rate-limited answers in a row take the loop through [k] passes. *)
Lemma retry_loop_rounds k fuel retries log :
  retries + Z.of_nat k ≤ MAX_RETRIES + 1 →
  (∀ i, (i < k)%nat →
     ∃ r, net (sent log + i)%nat rq = Some r ∧ status_code r = 429) →
  retry_loop (k + fuel) rq retries net log
  = retry_loop fuel rq (retries + Z.of_nat k) net
      (log ++ backoff_rounds rq retries k).
Proof.
  revert retries log. induction k as [|k IH]; intros retries log Hle Hnet.
  - simpl. by rewrite Z.add_0_r, app_nil_r.
  - destruct (Hnet 0%nat) as (r & Hr & Hs); [lia|].
    rewrite Nat.add_0_r in Hr.
    change (S k + fuel)%nat with (S (k + fuel)).
    rewrite (retry_loop_rate_limited _ _ _ r) by (done || lia).
    rewrite IH.
    + simpl backoff_rounds. rewrite <-app_assoc.
      by replace (retries + 1 + Z.of_nat k) with (retries + Z.of_nat (S k)) by lia.
    + lia.
    + intros i Hi. rewrite sent_app, sent_backoff_round.
      destruct (Hnet (S i)) as (r' & Hr' & Hs'); [lia|].
      exists r'. split; [|done]. rewrite <-Hr'. f_equal. lia.
Qed.

(** The loop finishes whenever the fuel exceeds the number of retries
    that are left, and then satisfies [executor_post]. *)
Lemma retry_loop_total fuel retries log :
  (Z.to_nat (MAX_RETRIES + 1 - retries) < fuel)%nat →
  ∃ out evs,
    retry_loop fuel rq retries net log = (out, log ++ evs)
    ∧ requests_of evs = replicate (sent evs) rq
    ∧ (retries ≤ MAX_RETRIES → hd_error evs = Some (EvRequest rq))
    ∧ Z.of_nat (sent evs) ≤ Z.max 0 (MAX_RETRIES + 1 - retries)
    ∧ executor_post net rq retries log evs out.
Proof.
  revert retries log. induction fuel as [|fuel IH]; intros retries log Hfuel; [lia|].
  destruct (decide (retries ≤ MAX_RETRIES)) as [Hle|Hgt].
  - destruct (net (sent log) rq) as [r|] eqn:Hnet.
    + destruct (decide (status_code r = 429)) as [Hs|Hs].
      * rewrite (retry_loop_rate_limited _ _ _ r) by done.
        destruct (IH (retries + 1) (log ++ backoff_round rq retries))
          as (out & evs & Hrun & Hreqs & _ & Hsent & Hpost); [lia|].
        exists out, (backoff_round rq retries ++ evs).
        rewrite Hrun, <-app_assoc, sent_app, sent_backoff_round.
        split_and!; [done| |done|lia|].
        { rewrite requests_of_app. simpl. by rewrite Hreqs. }
        revert Hpost. unfold executor_post.
        rewrite !sent_app, !sent_backoff_round.
        replace (sent log + 1 + sent evs - 1)%nat
          with (sent log + (1 + sent evs) - 1)%nat by lia.
        destruct out as [r'|[]|]; try done.
        intros [-> Hn]. split; [done|lia].
      * rewrite (retry_loop_answered _ _ _ r) by done.
        assert (Hidx : (sent log + sent [EvRequest rq] - 1)%nat = sent log)
          by (unfold sent; simpl; lia).
        destruct (decide (is_http_error (status_code r))) as [He|He].
        -- exists (Raise (HTTPError r)), [EvRequest rq].
           rewrite (bind_Raise _ _ _ _ (HTTPError r) (log ++ [EvRequest rq]))
             by by apply raise_for_status_error.
           split_and!; try done; [unfold sent; simpl; lia|].
           simpl. by rewrite Hidx.
        -- exists (Return r), [EvRequest rq].
           rewrite (bind_Return _ _ _ _ () (log ++ [EvRequest rq]))
             by by apply raise_for_status_pass.
           split_and!; try done; [unfold sent; simpl; lia|].
           simpl. by rewrite Hidx.
    + rewrite retry_loop_transport by done.
      exists (Raise RequestException), [EvRequest rq].
      split_and!; try done; [unfold sent; simpl; lia|].
      simpl. unfold sent at 2. simpl.
      by replace (sent log + 1 - 1)%nat with (sent log) by lia.
  - rewrite retry_loop_exhausted by lia.
    exists (Raise (Exception failed_msg)), [].
    rewrite app_nil_r. split_and!; try done; [unfold sent; simpl; lia|].
    simpl. split; [done|]. unfold sent; simpl; lia.
Qed.

(** More fuel than needed does not change the result. *)
Lemma retry_loop_fuel_mono fuel extra retries log out log' :
  retry_loop fuel rq retries net log = (out, log') →
  out ≠ OutOfFuel →
  retry_loop (fuel + extra) rq retries net log = (out, log').
Proof.
  revert retries log. induction fuel as [|fuel IH]; intros retries log Hrun Hout.
  { simpl in Hrun. unfold out_of_fuel in Hrun. congruence. }
  change (S fuel + extra)%nat with (S (fuel + extra)).
  destruct (decide (retries ≤ MAX_RETRIES)) as [Hle|Hgt].
  - destruct (net (sent log) rq) as [r|] eqn:Hnet.
    + destruct (decide (status_code r = 429)) as [Hs|Hs].
      * rewrite (retry_loop_rate_limited _ _ _ r) in Hrun by done.
        rewrite (retry_loop_rate_limited _ _ _ r) by done.
        by apply IH.
      * rewrite (retry_loop_answered _ _ _ r) in Hrun by done.
        by rewrite (retry_loop_answered _ _ _ r).
    + rewrite retry_loop_transport in Hrun by done.
      by rewrite retry_loop_transport.
  - rewrite retry_loop_exhausted in Hrun by lia.
    by rewrite retry_loop_exhausted by lia.
Qed.

(** After [k] rate-limited answers, with [k ≤ MAX_RETRIES], an answer
    that is not rate-limited ends the loop on the spot. *)
Lemma retry_loop_answer_after_rounds k fuel log r :
  Z.of_nat k ≤ MAX_RETRIES →
  (∀ i, (i < k)%nat →
     ∃ ri, net (sent log + i)%nat rq = Some ri ∧ status_code ri = 429) →
  net (sent log + k)%nat rq = Some r →
  status_code r ≠ 429 →
  retry_loop (k + S fuel) rq 0 net log
  = (if decide (is_http_error (status_code r))
     then Raise (HTTPError r) else Return r,
     log ++ backoff_rounds rq 0 k ++ [EvRequest rq]).
Proof.
  intros Hk H429 Hr Hs.
  rewrite retry_loop_rounds by (done || lia).
  rewrite (retry_loop_answered _ _ _ r);
    [|lia| |done].
  2:{ rewrite sent_app. unfold sent at 2.
      by rewrite requests_of_backoff_rounds, length_replicate. }
  rewrite <-app_assoc. case_decide as He.
  - by apply bind_Raise, raise_for_status_error.
  - by erewrite bind_Return; [|by apply raise_for_status_pass].
Qed.
End retry_loop.

Lemma MAX_RETRIES_nonneg : 0 ≤ MAX_RETRIES.
Proof. unfold MAX_RETRIES. lia. Qed.

Lemma loop_fuel_split (k : nat) :
  Z.of_nat k ≤ MAX_RETRIES + 1 →
  loop_fuel = (k + S (loop_fuel - k - 1))%nat.
Proof. unfold loop_fuel. pose proof MAX_RETRIES_nonneg. lia. Qed.

Lemma backoff_delays_spec k rq :
  sleeps_of (backoff_rounds rq 0 k) = backoff_delays k.
Proof. by rewrite sleeps_of_backoff_rounds. Qed.

Lemma failed_msg_eq :
  failed_msg = "Failed after 5 retries due to rate limiting.".
Proof. reflexivity. Qed.

(** After [k ≤ MAX_RETRIES] rate-limited answers, the executor stops at the
    first answer that is not rate-limited. *)
Lemma executor_answer_after_rounds net meth u hs ps js log (k : nat) r :
  let rq := mkRequest meth u hs ps js in
  Z.of_nat k ≤ MAX_RETRIES →
  (∀ i, (i < k)%nat →
     ∃ ri, net (sent log + i)%nat rq = Some ri ∧ status_code ri = 429) →
  net (sent log + k)%nat rq = Some r →
  status_code r ≠ 429 →
  handle_request_with_retries meth u hs ps js net log
  = (if decide (is_http_error (status_code r))
     then Raise (HTTPError r) else Return r,
     log ++ backoff_rounds rq 0 k ++ [EvRequest rq]).
Proof.
  intros rq Hk H429 Hr Hs.
  unfold handle_request_with_retries, handle_request_with_retries_fuel.
  rewrite (loop_fuel_split k) by lia.
  by apply retry_loop_answer_after_rounds.
Qed.

(** ** The executor *)

(** C1. If the first [k] answers are rate-limited (status 429), with
    [k ≤ MAX_RETRIES], and the next one is a success (2xx), the executor
    returns that response.  It has then sent exactly [k + 1] requests, all
    of them the given one, and slept exactly [k] times, the [i]-th time
    (from 0) for [RETRY_BACKOFF_FACTOR ^ i] seconds; the successful request
    is the last event. *)
Theorem retries_then_success net meth u hs ps js log (k : nat) r :
  let rq := mkRequest meth u hs ps js in
  Z.of_nat k ≤ MAX_RETRIES →
  (∀ i, (i < k)%nat →
     ∃ ri, net (sent log + i)%nat rq = Some ri ∧ status_code ri = 429) →
  net (sent log + k)%nat rq = Some r →
  is_success (status_code r) →
  ∃ evs,
    handle_request_with_retries meth u hs ps js net log = (Return r, log ++ evs)
    ∧ evs = backoff_rounds rq 0 k ++ [EvRequest rq]
    ∧ requests_of evs = replicate (S k) rq
    ∧ sleeps_of evs = backoff_delays k
    ∧ ∀ i : nat, (i < k)%nat →
        sleeps_of evs !! i = Some (RETRY_BACKOFF_FACTOR ^ Z.of_nat i).
Proof.
  intros rq Hk H429 Hr Hok. unfold is_success in Hok.
  exists (backoff_rounds rq 0 k ++ [EvRequest rq]).
  assert (Hsl : sleeps_of (backoff_rounds rq 0 k ++ [EvRequest rq])
                = backoff_delays k).
  { by rewrite sleeps_of_app, backoff_delays_spec, app_nil_r. }
  split_and!; [|done| |done|].
  - rewrite (executor_answer_after_rounds net meth u hs ps js log k r)
      by (done || lia).
    rewrite decide_False; [done|]. unfold is_http_error. lia.
  - rewrite requests_of_app, requests_of_backoff_rounds. simpl.
    by rewrite <-replicate_S_end.
  - intros i Hi. rewrite Hsl. unfold backoff_delays.
    rewrite list_lookup_fmap, lookup_seq_lt by done. done.
Qed.

(** The scenario of the specification: answers 429, 429, 200 give two
    delays, of 1 and 2 seconds, and then the successful response. *)
Lemma retries_then_success_scenario :
  ∃ evs,
    handle_request_with_retries "GET" (BASE_URL +:+ "/venues") (Some HEADERS)
      None None (net_of_statuses [429; 429; 200]) []
    = (Return (mkResponse 200 (Some PNone)), evs)
    ∧ requests_of evs = [sample_request; sample_request; sample_request]
    ∧ sleeps_of evs = [1; 2].
Proof.
  destruct (retries_then_success (net_of_statuses [429; 429; 200])
              "GET" (BASE_URL +:+ "/venues") (Some HEADERS) None None []
              2%nat (mkResponse 200 (Some PNone)))
    as (evs & Hrun & _ & Hreqs & Hsleeps & _).
  - unfold MAX_RETRIES. simpl. lia.
  - intros [|[|i]] Hi; [by eexists|by eexists|lia].
  - reflexivity.
  - unfold is_success. simpl. lia.
  - exists evs. split_and!; [exact Hrun|exact Hreqs|exact Hsleeps].
Defined.

(** C2. If each of the first [MAX_RETRIES + 1] answers is rate-limited, the
    executor raises the final [Exception] after exactly [MAX_RETRIES + 1]
    requests (and as many sleeps); whatever the network would answer
    afterwards is never asked for. *)
Theorem retries_exhausted net meth u hs ps js log :
  let rq := mkRequest meth u hs ps js in
  (∀ i : nat, Z.of_nat i ≤ MAX_RETRIES →
     ∃ ri, net (sent log + i)%nat rq = Some ri ∧ status_code ri = 429) →
  ∃ evs,
    handle_request_with_retries meth u hs ps js net log
    = (Raise (Exception "Failed after 5 retries due to rate limiting."),
       log ++ evs)
    ∧ requests_of evs = replicate (Z.to_nat (MAX_RETRIES + 1)) rq
    ∧ Z.of_nat (sent evs) = MAX_RETRIES + 1
    ∧ sleeps_of evs = backoff_delays (Z.to_nat (MAX_RETRIES + 1)).
Proof.
  intros rq H429. pose proof MAX_RETRIES_nonneg as Hmax.
  set (n := Z.to_nat (MAX_RETRIES + 1)).
  exists (backoff_rounds rq 0 n).
  split_and!.
  - unfold handle_request_with_retries, handle_request_with_retries_fuel.
    replace loop_fuel with (n + 1)%nat by (unfold loop_fuel, n; lia).
    rewrite retry_loop_rounds.
    + rewrite retry_loop_exhausted by lia. by rewrite failed_msg_eq.
    + lia.
    + intros i Hi. apply H429. lia.
  - apply requests_of_backoff_rounds.
  - unfold sent. rewrite requests_of_backoff_rounds, length_replicate. lia.
  - apply backoff_delays_spec.
Qed.

Lemma retries_exhausted_scenario :
  ∃ evs,
    handle_request_with_retries "GET" (BASE_URL +:+ "/venues") (Some HEADERS)
      None None (net_always (mkResponse 429 None)) []
    = (Raise (Exception "Failed after 5 retries due to rate limiting."), evs)
    ∧ requests_of evs = replicate 6 sample_request
    ∧ sleeps_of evs = [1; 2; 4; 8; 16; 32].
Proof.
  destruct (retries_exhausted (net_always (mkResponse 429 None))
              "GET" (BASE_URL +:+ "/venues") (Some HEADERS) None None [])
    as (evs & Hrun & Hreqs & _ & Hsleeps).
  - intros i _. by eexists.
  - exists evs. split_and!; [exact Hrun|exact Hreqs|exact Hsleeps].
Defined.

(** What the executor does with the first answer that is not rate-limited,
    after [k ≤ MAX_RETRIES] rate-limited ones.  A client or server error
    (400..599) makes it raise [HTTPError] carrying that response at once:
    the answered request is the last event, so nothing is slept and nothing
    is sent after it.  Any other status passes [raise_for_status] and the
    response is returned to the caller. *)
Theorem error_status_raises_at_once net meth u hs ps js log (k : nat) r :
  let rq := mkRequest meth u hs ps js in
  Z.of_nat k ≤ MAX_RETRIES →
  (∀ i, (i < k)%nat →
     ∃ ri, net (sent log + i)%nat rq = Some ri ∧ status_code ri = 429) →
  net (sent log + k)%nat rq = Some r →
  status_code r ≠ 429 →
  ∃ out,
    handle_request_with_retries meth u hs ps js net log
    = (out, log ++ backoff_rounds rq 0 k ++ [EvRequest rq])
    ∧ (is_http_error (status_code r) → out = Raise (HTTPError r))
    ∧ (¬ is_http_error (status_code r) → out = Return r).
Proof.
  intros rq Hk H429 Hr Hs. eexists. split.
  - by apply executor_answer_after_rounds.
  - split; intros He; [by rewrite decide_True|by rewrite decide_False].
Qed.

Lemma error_status_raises_at_once_scenario :
  handle_request_with_retries "GET" (BASE_URL +:+ "/venues") (Some HEADERS)
    None None (net_of_statuses [429; 503]) []
  = (Raise (HTTPError (mkResponse 503 (Some PNone))),
     backoff_rounds sample_request 0 1 ++ [EvRequest sample_request]).
Proof.
  destruct (error_status_raises_at_once (net_of_statuses [429; 503])
              "GET" (BASE_URL +:+ "/venues") (Some HEADERS) None None []
              1%nat (mkResponse 503 (Some PNone)))
    as (out & Hrun & Herr & _).
  - unfold MAX_RETRIES. simpl. lia.
  - intros [|i] Hi; [by eexists|lia].
  - reflexivity.
  - simpl. lia.
  - rewrite Hrun, Herr; [reflexivity|]. unfold is_http_error. simpl. lia.
Defined.

(** C3.  The code at an answer with status 304: the status is neither 2xx
    nor 429, yet the response is returned and no [HTTPError] is raised,
    against the comment on the call of [raise_for_status] ("Raise an error
    for non-200 status codes"). *)
Lemma not_modified_is_returned :
  let r := mkResponse 304 None in
  ¬ is_success (status_code r)
  ∧ status_code r ≠ 429
  ∧ handle_request_with_retries "GET" (BASE_URL +:+ "/venues") (Some HEADERS)
      None None (net_always r) []
    = (Return r, [EvRequest sample_request])
  ∧ ∀ r', (handle_request_with_retries "GET" (BASE_URL +:+ "/venues")
             (Some HEADERS) None None (net_always r) []).1
          ≠ Raise (HTTPError r').
Proof.
  simpl. split_and!.
  - unfold is_success. lia.
  - lia.
  - reflexivity.
  - intros r'. vm_compute. discriminate.
Qed.

(** C4, as amended.  With any fuel of at least [loop_fuel], against any
    network, the executor finishes: it returns a response, raises
    [HTTPError], raises the final [Exception], or lets the failure of
    [requests.request] escape when a request got no answer (the responses
    have run out); the last case does not arise when the network answers
    every request.  It sends at least one and at most [MAX_RETRIES + 1]
    requests, all of them the given one, and the result does not depend on
    the fuel. *)
Theorem executor_terminates net meth u hs ps js log (extra : nat) :
  let rq := mkRequest meth u hs ps js in
  ∃ out evs,
    handle_request_with_retries_fuel (loop_fuel + extra) meth u hs ps js net log
    = (out, log ++ evs)
    ∧ handle_request_with_retries meth u hs ps js net log = (out, log ++ evs)
    ∧ requests_of evs = replicate (sent evs) rq
    ∧ 1 ≤ Z.of_nat (sent evs) ≤ MAX_RETRIES + 1
    ∧ ((∃ r, out = Return r)
       ∨ (∃ r, out = Raise (HTTPError r))
       ∨ out = Raise (Exception failed_msg)
       ∨ (out = Raise RequestException
          ∧ net (sent log + sent evs - 1)%nat rq = None))
    ∧ ((∀ n, is_Some (net n rq)) →
       (∃ r, out = Return r)
       ∨ (∃ r, out = Raise (HTTPError r))
       ∨ out = Raise (Exception failed_msg)).
Proof.
  intros rq. pose proof MAX_RETRIES_nonneg as Hmax.
  destruct (retry_loop_total net rq loop_fuel 0 log)
    as (out & evs & Hrun & Hreqs & Hhd & Hsent & Hpost).
  { unfold loop_fuel. lia. }
  exists out, evs.
  assert (Hout : out ≠ OutOfFuel) by (by destruct out).
  split_and!; [|done|done| |lia| |].
  - unfold handle_request_with_retries_fuel.
    by apply retry_loop_fuel_mono.
  - specialize (Hhd Hmax). destruct evs as [|ev evs]; [done|].
    simpl in Hhd. injection Hhd as ->. unfold sent. simpl. lia.
  - destruct out as [r|[r|msg| |]|]; simpl in Hpost; try done.
    + left. by exists r.
    + right; left. by exists r.
    + right; right; left. by destruct Hpost as [-> _].
    + right; right; right. done.
  - intros Hnet.
    destruct out as [r|[r|msg| |]|]; simpl in Hpost; try done.
    + left. by exists r.
    + right; left. by exists r.
    + right; right. by destruct Hpost as [-> _].
    + destruct (Hnet (sent log + sent evs - 1)%nat) as [r Hr]. congruence.
Qed.

(** Against a network that is rate-limited forever the call still ends,
    after six requests. *)
Lemma executor_terminates_scenario :
  ∃ evs,
    handle_request_with_retries_fuel (loop_fuel + 100) "GET"
      (BASE_URL +:+ "/venues") (Some HEADERS) None None
      (net_always (mkResponse 429 None)) []
    = (Raise (Exception failed_msg), evs)
    ∧ sent evs = 6%nat.
Proof.
  destruct (executor_terminates (net_always (mkResponse 429 None)) "GET"
              (BASE_URL +:+ "/venues") (Some HEADERS) None None [] 100)
    as (out & evs & Hrun & Hrun' & _).
  assert (Heq : (out, evs) = (Raise (Exception failed_msg),
                              backoff_rounds sample_request 0 6)).
  { etrans; [symmetry; exact Hrun'|reflexivity]. }
  injection Heq as -> ->.
  exists (backoff_rounds sample_request 0 6). split; [exact Hrun|reflexivity].
Defined.

(** C4 as stated fails on a finite sequence of responses: when the only
    response is a 429, the second request gets no answer and the call ends
    with the exception of [requests.request], which is none of the three
    outcomes of the claim.  The same happens with no response at all. *)
Lemma responses_run_out :
  let run responses :=
    handle_request_with_retries "GET" (BASE_URL +:+ "/venues") (Some HEADERS)
      None None (net_of_statuses responses) [] in
  run [429]
  = (Raise RequestException,
     backoff_round sample_request 0 ++ [EvRequest sample_request])
  ∧ run [] = (Raise RequestException, [EvRequest sample_request])
  ∧ (∀ r, (run [429]).1 ≠ Return r)
  ∧ (∀ r, (run [429]).1 ≠ Raise (HTTPError r))
  ∧ (run [429]).1 ≠ Raise (Exception failed_msg).
Proof.
  intros run. split_and!; [reflexivity|reflexivity| | |];
    try intros r; vm_compute; discriminate.
Qed.

(** ** The resource functions *)

Lemma handle_request_with_retries_sends meth u hs ps js :
  sends (handle_request_with_retries meth u hs ps js)
        (mkRequest meth u hs ps js).
Proof.
  intros net log.
  destruct (retry_loop_total net (mkRequest meth u hs ps js) loop_fuel 0 log)
    as (out & evs & Hrun & Hreqs & Hhd & _).
  { unfold loop_fuel. pose proof MAX_RETRIES_nonneg. lia. }
  exists evs. unfold handle_request_with_retries, handle_request_with_retries_fuel.
  rewrite Hrun. split_and!; [done| |done].
  apply Hhd, MAX_RETRIES_nonneg.
Qed.

(** Reading the body or the status code of the response adds no event. *)
Lemma bind_silent_log {A B} (m : IO A) (f : A → IO B) net log :
  (∀ a net' log', (f a net' log').2 = log') →
  ((m ≫= f) net log).2 = (m net log).2.
Proof.
  intros Hf. unfold mbind, IO_bind.
  destruct (m net log) as [[a|e|] log']; simpl; [apply Hf|done|done].
Qed.

Lemma response_json_silent r net log : (response_json r net log).2 = log.
Proof. unfold response_json. by destruct (json_body r). Qed.

Lemma sends_json meth u hs ps js :
  sends (handle_request_with_retries meth u hs ps js ≫= response_json)
        (mkRequest meth u hs ps js).
Proof.
  intros net log. rewrite bind_silent_log by apply response_json_silent.
  apply handle_request_with_retries_sends.
Qed.

(** C5. Every request that [create_business_org] sends is a POST whose
    body has the given address as [addressLine] of both [orgAddress] and
    [billingAddress], and the empty string as [phone], [notes] and
    [billingRecipients]. *)
Theorem create_business_org_body
    (org_display_name org_type_id parent_org_id address : PyVal) :
  ∃ rq body org_address billing_address,
    sends (create_business_org org_display_name org_type_id parent_org_id address) rq
    ∧ method rq = "POST"
    ∧ url rq = BASE_URL +:+ "/organization"
    ∧ json rq = Some body
    ∧ body !! "orgAddress" = Some (PDict org_address)
    ∧ org_address !! "addressLine" = Some address
    ∧ body !! "billingAddress" = Some (PDict billing_address)
    ∧ billing_address !! "addressLine" = Some address
    ∧ body !! "phone" = Some (PStr "")
    ∧ body !! "notes" = Some (PStr "")
    ∧ body !! "billingRecipients" = Some (PStr "")
    ∧ body !! "orgDisplayName" = Some org_display_name
    ∧ body !! "orgTypeId" = Some org_type_id
    ∧ body !! "parentOrgId" = Some parent_org_id.
Proof.
  eexists (mkRequest _ _ _ _ (Some _)), _, _, _.
  split; [apply sends_json|].
  split_and!; reflexivity.
Qed.

(** The scenario of the specification for C5. *)
Example create_acme :
  ∃ rq body,
    sends (create_business_org (PStr "Acme") (PInt 3) (PInt 317)
             (PStr "123 Main St")) rq
    ∧ json rq = Some body
    ∧ body !! "orgAddress"
      = Some (PDict {["addressLine" := PStr "123 Main St"]})
    ∧ body !! "billingAddress"
      = Some (PDict {["addressLine" := PStr "123 Main St"]}).
Proof.
  eexists (mkRequest _ _ _ _ (Some _)), _.
  split; [apply sends_json|]. split_and!; reflexivity.
Qed.

(** C6. Without a search query ([search_query = None]) the query
    parameters that [get_venues] sends have exactly the keys [orgId],
    [offset], [limit], [order] and [orderBy]; there is no [search] key. *)
Theorem get_venues_no_search (org_id offset limit order order_by : PyVal) :
  ∃ rq query,
    sends (get_venues org_id offset limit order order_by PNone) rq
    ∧ method rq = "GET"
    ∧ url rq = BASE_URL +:+ "/venues"
    ∧ params rq = Some query
    ∧ dom query = {["orgId"; "offset"; "limit"; "order"; "orderBy"]}
    ∧ ("search" ∉ dom query)
    ∧ query !! "search" = None
    ∧ query !! "orgId" = Some org_id.
Proof.
  eexists (mkRequest _ _ _ (Some _) _), _.
  split; [apply sends_json|].
  split_and!; try reflexivity.
  apply not_elem_of_dom. reflexivity.
Qed.

(** The scenario of the specification for C6: the venues of org 42. *)
Example get_venues_org_42 :
  ∃ rq query,
    sends (get_venues (PInt 42) default_offset default_limit default_order
             default_order_by_venue PNone) rq
    ∧ params rq = Some query
    ∧ query !! "search" = None
    ∧ query !! "orgId" = Some (PInt 42).
Proof.
  eexists (mkRequest _ _ _ (Some _) _), _.
  split; [apply sends_json|]. split_and!; reflexivity.
Qed.

(** C7. Every request that [create_venue] sends is a POST whose body has
    [parentVenueId = 0], [state = 1], [venueType = 1] and the given address
    as [addressLine] of both [venueAddress] and [shippingAddress]. *)
Theorem create_venue_body (org_id venue_name address : PyVal) :
  ∃ rq body venue_address shipping_address,
    sends (create_venue org_id venue_name address) rq
    ∧ method rq = "POST"
    ∧ url rq = BASE_URL +:+ "/venues"
    ∧ json rq = Some body
    ∧ body !! "parentVenueId" = Some (PInt 0)
    ∧ body !! "state" = Some (PInt 1)
    ∧ body !! "venueType" = Some (PInt 1)
    ∧ body !! "venueAddress" = Some (PDict venue_address)
    ∧ venue_address !! "addressLine" = Some address
    ∧ body !! "shippingAddress" = Some (PDict shipping_address)
    ∧ shipping_address !! "addressLine" = Some address
    ∧ body !! "orgId" = Some org_id
    ∧ body !! "venueName" = Some venue_name.
Proof.
  eexists (mkRequest _ _ _ _ (Some _)), _, _, _.
  split; [apply sends_json|].
  split_and!; reflexivity.
Qed.

(** C8. When the underlying request succeeds, each of the three remove
    functions returns the status code of the server's answer and nothing
    else: after [k ≤ MAX_RETRIES] rate-limited answers to its DELETE
    request, an answer [r] that passes [raise_for_status] (any 2xx, for
    one) makes the function return [status_code r], an integer.  The body
    of [r] is not read, so it need not be JSON, and the DELETE that was
    answered is the last event. *)
Theorem remove_returns_status_code (id : Z) net log (k : nat) r :
  let rq path := mkRequest "DELETE" (BASE_URL +:+ path +:+ pretty id)
                   (Some HEADERS) None None in
  let answered path :=
    (∀ i, (i < k)%nat →
       ∃ ri, net (sent log + i)%nat (rq path) = Some ri
             ∧ status_code ri = 429)
    ∧ net (sent log + k)%nat (rq path) = Some r in
  Z.of_nat k ≤ MAX_RETRIES →
  status_code r ≠ 429 →
  ¬ is_http_error (status_code r) →
  (answered "/organization/" →
   remove_business_org id net log
   = (Return (status_code r),
      log ++ backoff_rounds (rq "/organization/") 0 k
          ++ [EvRequest (rq "/organization/")]))
  ∧ (answered "/venues/" →
     remove_venue id net log
     = (Return (status_code r),
        log ++ backoff_rounds (rq "/venues/") 0 k
            ++ [EvRequest (rq "/venues/")]))
  ∧ (answered "/infrastructure/" →
     remove_infrastructure id net log
     = (Return (status_code r),
        log ++ backoff_rounds (rq "/infrastructure/") 0 k
            ++ [EvRequest (rq "/infrastructure/")])).
Proof.
  intros rq answered Hk Hs Hok.
  assert (Hrun : ∀ path, answered path →
            (handle_request_with_retries "DELETE"
               (BASE_URL +:+ path +:+ pretty id) (Some HEADERS) None None
             ≫= λ response, mret (status_code response)) net log
            = (Return (status_code r),
               log ++ backoff_rounds (rq path) 0 k ++ [EvRequest (rq path)])).
  { intros path [H429 Hr].
    erewrite bind_Return; [reflexivity|].
    rewrite (executor_answer_after_rounds net "DELETE"
               (BASE_URL +:+ path +:+ pretty id) (Some HEADERS) None None
               log k r) by done.
    by rewrite decide_False. }
  unfold remove_business_org, remove_venue, remove_infrastructure.
  split_and!; intros Hanswered; by apply Hrun.
Qed.

(** Resource 7 is removed at the second attempt, with a 204 that has no
    body: the remove functions return 204 after two DELETE requests. *)
Lemma remove_returns_status_code_scenario :
  let net : Network :=
    λ n _, if decide (n = 0%nat) then Some (mkResponse 429 None)
           else Some (mkResponse 204 None) in
  (remove_business_org 7 net []).1 = Return 204
  ∧ (remove_venue 7 net []).1 = Return 204
  ∧ (remove_infrastructure 7 net []).1 = Return 204
  ∧ sent (remove_infrastructure 7 net []).2 = 2%nat.
Proof.
  intros net.
  destruct (remove_returns_status_code 7 net [] 1 (mkResponse 204 None))
    as (Horg & Hvenue & Hinfra).
  - unfold MAX_RETRIES. simpl. lia.
  - simpl. lia.
  - unfold is_http_error. simpl. lia.
  - assert (Hanswered : ∀ rq : Request,
              (∀ i, (i < 1)%nat →
                 ∃ ri, net (sent [] + i)%nat rq = Some ri
                       ∧ status_code ri = 429)
              ∧ net (sent [] + 1)%nat rq = Some (mkResponse 204 None)).
    { intros rq. split; [|reflexivity].
      intros [|i] Hi; [by eexists|lia]. }
    rewrite Horg, Hvenue, Hinfra by apply Hanswered.
    split_and!; reflexivity.
Defined.

(** C9. When the server answers a remove call with a client or server
    error status other than 429, such as the 404 of a resource that is
    already gone, the remove function raises [HTTPError] carrying that
    response.  It has sent this one request and done nothing else: no
    retry, no sleep, no status code returned. *)
Theorem remove_missing_raises (id : Z) net log r :
  let rq path := mkRequest "DELETE" (BASE_URL +:+ path +:+ pretty id)
                   (Some HEADERS) None None in
  is_http_error (status_code r) →
  status_code r ≠ 429 →
  (net (sent log) (rq "/organization/") = Some r →
   remove_business_org id net log
   = (Raise (HTTPError r), log ++ [EvRequest (rq "/organization/")]))
  ∧ (net (sent log) (rq "/venues/") = Some r →
     remove_venue id net log
     = (Raise (HTTPError r), log ++ [EvRequest (rq "/venues/")]))
  ∧ (net (sent log) (rq "/infrastructure/") = Some r →
     remove_infrastructure id net log
     = (Raise (HTTPError r), log ++ [EvRequest (rq "/infrastructure/")])).
Proof.
  intros rq He Hs.
  assert (Hrun : ∀ path, net (sent log) (rq path) = Some r →
            handle_request_with_retries "DELETE" (BASE_URL +:+ path +:+ pretty id)
              (Some HEADERS) None None net log
            = (Raise (HTTPError r), log ++ [EvRequest (rq path)])).
  { intros path Hnet.
    rewrite (executor_answer_after_rounds net "DELETE"
               (BASE_URL +:+ path +:+ pretty id) (Some HEADERS) None None
               log 0%nat r);
      [|apply MAX_RETRIES_nonneg|lia|by rewrite Nat.add_0_r|done].
    by rewrite decide_True. }
  unfold remove_business_org, remove_venue, remove_infrastructure.
  split_and!; intros Hnet; apply bind_Raise; by apply (Hrun _ Hnet).
Qed.

(** Removing organization 7 twice: the second call meets a 404. *)
Lemma remove_missing_raises_scenario :
  let gone := mkResponse 404 None in
  let rq path := mkRequest "DELETE" (BASE_URL +:+ path +:+ "7")
                   (Some HEADERS) None None in
  remove_business_org 7 (net_always gone) []
  = (Raise (HTTPError gone), [EvRequest (rq "/organization/")])
  ∧ remove_venue 7 (net_always gone) []
    = (Raise (HTTPError gone), [EvRequest (rq "/venues/")])
  ∧ remove_infrastructure 7 (net_always gone) []
    = (Raise (HTTPError gone), [EvRequest (rq "/infrastructure/")]).
Proof.
  intros gone rq.
  destruct (remove_missing_raises 7 (net_always gone) [] gone)
    as (Horg & Hvenue & Hinfra).
  - unfold is_http_error. simpl. lia.
  - simpl. lia.
  - split_and!; [apply Horg|apply Hvenue|apply Hinfra]; reflexivity.
Defined.

(** C10. [get_venues] leaves out the [search] key for every falsy
    [search_query], not only for [None]: the guard tests truthiness, and
    the falsy values are [None], [False], [0], the empty string, the empty
    list and the empty dict.  [find_business_org] always sends a [search]
    key, whatever the query, falsy or not. *)
Theorem search_key_truthiness
    (org_id offset limit order order_by search_query : PyVal) :
  (truthy search_query = false
   ↔ search_query ∈ [PNone; PBool false; PInt 0; PStr ""; PList [];
                     PDict ∅])
  ∧ (truthy search_query = false →
     ∃ rq query,
       sends (get_venues org_id offset limit order order_by search_query) rq
       ∧ params rq = Some query
       ∧ query !! "search" = None
       ∧ dom query = {["orgId"; "offset"; "limit"; "order"; "orderBy"]})
  ∧ (∃ rq query,
       sends (find_business_org search_query offset limit order order_by) rq
       ∧ params rq = Some query
       ∧ query !! "search" = Some search_query
       ∧ dom query = {["search"; "offset"; "limit"; "order"; "orderBy"]}).
Proof.
  split_and!.
  - rewrite !elem_of_cons, elem_of_nil.
    destruct search_query as [|[|]|z|s|l|d]; simpl;
      rewrite ?negb_false_iff, ?Z.eqb_eq, ?String.eqb_eq, ?Nat.eqb_eq,
        ?length_zero_iff_nil, ?map_size_empty_iff;
      (split; [intros Hfalsy; try discriminate Hfalsy; subst; auto 10
              |intros Hin; decompose [or] Hin; (done || congruence)]).
  - intros Hfalsy. eexists (mkRequest _ _ _ (Some _) _), _.
    split; [apply sends_json|].
    rewrite Hfalsy. split_and!; reflexivity.
  - eexists (mkRequest _ _ _ (Some _) _), _.
    split; [apply sends_json|]. split_and!; reflexivity.
Qed.

(** The empty string: no [search] key from [get_venues], a [search] key
    with the empty string from [find_business_org]; a name is sent by
    [find_business_org] just the same. *)
Lemma search_key_empty_string :
  (∃ rq query,
     sends (get_venues (PInt 42) default_offset default_limit default_order
              default_order_by_venue (PStr "")) rq
     ∧ params rq = Some query
     ∧ query !! "search" = None)
  ∧ (∃ rq query,
       sends (find_business_org (PStr "") default_offset default_limit
                default_order default_order_by_org) rq
       ∧ params rq = Some query
       ∧ query !! "search" = Some (PStr ""))
  ∧ (∃ rq query,
       sends (find_business_org (PStr "Acme") default_offset default_limit
                default_order default_order_by_org) rq
       ∧ params rq = Some query
       ∧ query !! "search" = Some (PStr "Acme")).
Proof.
  destruct (search_key_truthiness (PInt 42) default_offset default_limit
              default_order default_order_by_venue (PStr ""))
    as (_ & Hget & _).
  destruct Hget as (rq1 & q1 & Hs1 & Hp1 & Hq1 & _); [reflexivity|].
  destruct (search_key_truthiness (PInt 42) default_offset default_limit
              default_order default_order_by_org (PStr ""))
    as (_ & _ & rq2 & q2 & Hs2 & Hp2 & Hq2 & _).
  destruct (search_key_truthiness (PInt 42) default_offset default_limit
              default_order default_order_by_org (PStr "Acme"))
    as (_ & _ & rq3 & q3 & Hs3 & Hp3 & Hq3 & _).
  split_and!; [by exists rq1, q1|by exists rq2, q2|by exists rq3, q3].
Defined.

(** A truthy query is sent along by [get_venues]. *)
Lemma get_venues_with_search
    (org_id offset limit order order_by search_query : PyVal) :
  truthy search_query = true →
  ∃ rq query,
    sends (get_venues org_id offset limit order order_by search_query) rq
    ∧ params rq = Some query
    ∧ query !! "search" = Some search_query.
Proof.
  intros Htruthy. eexists (mkRequest _ _ _ (Some _) _), _.
  split; [apply sends_json|]. rewrite Htruthy. split; reflexivity.
Qed.

(** ** The shape of every run of the executor *)

Lemma retry_loop_shape net rq fuel retries log :
  retries ≤ MAX_RETRIES + 1 →
  (Z.to_nat (MAX_RETRIES + 1 - retries) < fuel)%nat →
  ∃ j : nat,
    rate_limited_from net rq (sent log) j
    ∧ ((retries + Z.of_nat j = MAX_RETRIES + 1
        ∧ retry_loop fuel rq retries net log
          = (Raise (Exception failed_msg), log ++ backoff_rounds rq retries j))
       ∨ (retries + Z.of_nat j ≤ MAX_RETRIES
          ∧ net (sent log + j)%nat rq = None
          ∧ retry_loop fuel rq retries net log
            = (Raise RequestException,
               log ++ backoff_rounds rq retries j ++ [EvRequest rq]))
       ∨ (retries + Z.of_nat j ≤ MAX_RETRIES
          ∧ ∃ r, net (sent log + j)%nat rq = Some r
            ∧ status_code r ≠ 429
            ∧ retry_loop fuel rq retries net log
              = (if decide (is_http_error (status_code r))
                 then Raise (HTTPError r) else Return r,
                 log ++ backoff_rounds rq retries j ++ [EvRequest rq]))).
Proof.
  revert retries log.
  induction fuel as [|fuel IH]; intros retries log Hmax Hfuel; [lia|].
  destruct (decide (retries ≤ MAX_RETRIES)) as [Hle|Hgt].
  - destruct (net (sent log) rq) as [r|] eqn:Hnet.
    + destruct (decide (status_code r = 429)) as [Hs|Hs].
      * destruct (IH (retries + 1) (log ++ backoff_round rq retries))
          as (j & H429 & Hcases); [lia|lia|].
        rewrite sent_app, sent_backoff_round in H429, Hcases.
        exists (S j). split.
        { intros [|i] Hi.
          - exists r. by rewrite Nat.add_0_r.
          - destruct (H429 i) as (ri & Hri & Hsi); [lia|].
            exists ri. split; [|done]. rewrite <-Hri. f_equal. lia. }
        rewrite (retry_loop_rate_limited net rq _ _ _ r) by done.
        replace (sent log + S j)%nat with (sent log + 1 + j)%nat by lia.
        assert (Hlog : ∀ rest,
                  (log ++ backoff_round rq retries)
                  ++ backoff_rounds rq (retries + 1) j ++ rest
                  = log ++ backoff_rounds rq retries (S j) ++ rest).
        { intros rest. cbn [backoff_rounds]. by rewrite <-!app_assoc. }
        destruct Hcases as [[Hj Hrun]|[(Hj & Hnone & Hrun)|(Hj & r' & Hr' & Hs' & Hrun)]].
        -- left. split; [lia|]. rewrite Hrun.
           specialize (Hlog []). rewrite !app_nil_r in Hlog. by rewrite Hlog.
        -- right; left. split_and!; [lia|done|]. by rewrite Hrun, Hlog.
        -- right; right. split; [lia|]. exists r'. split_and!; [done|done|].
           by rewrite Hrun, Hlog.
      * exists 0%nat. split; [intros i Hi; lia|].
        right; right. split; [lia|]. exists r.
        rewrite Nat.add_0_r. split_and!; [done|done|].
        rewrite (retry_loop_answered net rq _ _ _ r) by done. simpl.
        case_decide as He.
        -- by apply bind_Raise, raise_for_status_error.
        -- by erewrite bind_Return; [|by apply raise_for_status_pass].
    + exists 0%nat. split; [intros i Hi; lia|].
      right; left. rewrite Nat.add_0_r. split_and!; [lia|done|].
      by rewrite retry_loop_transport.
  - exists 0%nat. split; [intros i Hi; lia|].
    left. split; [lia|]. rewrite retry_loop_exhausted by lia.
    by rewrite app_nil_r.
Qed.

Lemma executor_shape net meth u hs ps js log :
  let rq := mkRequest meth u hs ps js in
  let run := handle_request_with_retries meth u hs ps js net log in
  ∃ j : nat,
    rate_limited_from net rq (sent log) j
    ∧ ((Z.of_nat j = MAX_RETRIES + 1
        ∧ run = (Raise (Exception failed_msg), log ++ backoff_rounds rq 0 j))
       ∨ (Z.of_nat j ≤ MAX_RETRIES
          ∧ net (sent log + j)%nat rq = None
          ∧ run = (Raise RequestException,
                   log ++ backoff_rounds rq 0 j ++ [EvRequest rq]))
       ∨ (Z.of_nat j ≤ MAX_RETRIES
          ∧ ∃ r, net (sent log + j)%nat rq = Some r
            ∧ status_code r ≠ 429
            ∧ run = (if decide (is_http_error (status_code r))
                     then Raise (HTTPError r) else Return r,
                     log ++ backoff_rounds rq 0 j ++ [EvRequest rq]))).
Proof.
  intros rq run. pose proof MAX_RETRIES_nonneg as Hmax.
  destruct (retry_loop_shape net rq loop_fuel 0 log) as (j & H429 & Hcases);
    [lia|unfold loop_fuel; lia|].
  exists j. split; [done|]. by rewrite !Z.add_0_l in Hcases.
Qed.

Lemma prints_of_app l1 l2 : prints_of (l1 ++ l2) = prints_of l1 ++ prints_of l2.
Proof. apply omap_app. Qed.

Lemma prints_of_backoff_rounds rq k retries :
  prints_of (backoff_rounds rq retries k)
  = rate_limited_msg <$> sleeps_of (backoff_rounds rq retries k).
Proof.
  revert retries. induction k as [|k IH]; intros retries; [done|].
  simpl. by rewrite IH.
Qed.

Lemma length_backoff_delays k : length (backoff_delays k) = k.
Proof. unfold backoff_delays. by rewrite length_fmap, length_seq. Qed.

Lemma backoff_delays_S k :
  backoff_delays (S k) = backoff_delays k ++ [RETRY_BACKOFF_FACTOR ^ Z.of_nat k].
Proof. unfold backoff_delays. by rewrite seq_S, fmap_app. Qed.

Lemma foldr_add_app (l1 l2 : list Z) :
  foldr Z.add 0 (l1 ++ l2) = foldr Z.add 0 l1 + foldr Z.add 0 l2.
Proof. induction l1 as [|x l1 IH]; simpl; lia. Qed.

Lemma sum_backoff_delays k :
  foldr Z.add 0 (backoff_delays k) = RETRY_BACKOFF_FACTOR ^ Z.of_nat k - 1.
Proof.
  induction k as [|k IH]; [done|].
  rewrite backoff_delays_S, foldr_add_app, IH. simpl.
  rewrite Nat2Z.inj_succ, Z.pow_succ_r by lia.
  unfold RETRY_BACKOFF_FACTOR. lia.
Qed.

Lemma backoff_rounds_S_end rq retries k :
  backoff_rounds rq retries (S k)
  = backoff_rounds rq retries k ++ backoff_round rq (retries + Z.of_nat k).
Proof.
  revert retries. induction k as [|k IH]; intros retries.
  - simpl. by rewrite Z.add_0_r.
  - change (backoff_rounds rq retries (S (S k)))
      with (backoff_round rq retries ++ backoff_rounds rq (retries + 1) (S k)).
    rewrite IH. cbn [backoff_rounds]. rewrite <-app_assoc.
    by replace (retries + 1 + Z.of_nat k) with (retries + Z.of_nat (S k)) by lia.
Qed.

Lemma sleeps_of_rounds_then rq j rest :
  sleeps_of rest = [] →
  sleeps_of (backoff_rounds rq 0 j ++ rest) = backoff_delays j.
Proof.
  intros Hrest. by rewrite sleeps_of_app, backoff_delays_spec, Hrest, app_nil_r.
Qed.

(** X1. Every run of the executor, against any network, leaves the same
    kind of trace: [j] rounds of request, printed notice and sleep, followed
    either by nothing (then [j = MAX_RETRIES + 1]) or by exactly one more
    request (then [j ≤ MAX_RETRIES]).  The delays are
    [RETRY_BACKOFF_FACTOR ^ 0, ..., RETRY_BACKOFF_FACTOR ^ (j-1)] and every
    printed line announces the delay that is slept right after it. *)
Theorem executor_trace net meth u hs ps js log :
  let rq := mkRequest meth u hs ps js in
  ∃ (j : nat) (rest : list Event),
    (handle_request_with_retries meth u hs ps js net log).2
    = log ++ backoff_rounds rq 0 j ++ rest
    ∧ ((rest = [] ∧ Z.of_nat j = MAX_RETRIES + 1)
       ∨ (rest = [EvRequest rq] ∧ Z.of_nat j ≤ MAX_RETRIES))
    ∧ sleeps_of (backoff_rounds rq 0 j ++ rest) = backoff_delays j
    ∧ prints_of (backoff_rounds rq 0 j ++ rest)
      = rate_limited_msg <$> backoff_delays j.
Proof.
  intros rq.
  destruct (executor_shape net meth u hs ps js log) as (j & _ & Hcases).
  assert (Hpr : ∀ rest, prints_of rest = [] →
            prints_of (backoff_rounds rq 0 j ++ rest)
            = rate_limited_msg <$> backoff_delays j).
  { intros rest Hrest.
    by rewrite prints_of_app, prints_of_backoff_rounds, backoff_delays_spec,
      Hrest, app_nil_r. }
  destruct Hcases as [[Hj Hrun]|[(Hj & _ & Hrun)|(Hj & r & _ & _ & Hrun)]].
  - exists j, []. rewrite Hrun, app_nil_r. split_and!; [done|by left| |].
    + rewrite <-(app_nil_r (backoff_rounds rq 0 j)).
      by apply sleeps_of_rounds_then.
    + rewrite <-(app_nil_r (backoff_rounds rq 0 j)). by apply Hpr.
  - exists j, [EvRequest rq]. rewrite Hrun.
    split_and!; [done|by right|by apply sleeps_of_rounds_then|by apply Hpr].
  - exists j, [EvRequest rq]. rewrite Hrun.
    split_and!; [done|by right|by apply sleeps_of_rounds_then|by apply Hpr].
Qed.

(** X2. The executor never hands back a rate-limited or failed response:
    a response that it returns is the answer to the last request it sent,
    every earlier answer had status 429, and its status is neither 429 nor
    in 400..599.  Likewise the response inside a raised [HTTPError] is the
    answer to the last request, with a status in 400..599 other than 429. *)
Theorem executor_outcome_sound net meth u hs ps js log r log' :
  let rq := mkRequest meth u hs ps js in
  let run := handle_request_with_retries meth u hs ps js net log in
  (run = (Return r, log') →
   ∃ j : nat,
     Z.of_nat j ≤ MAX_RETRIES
     ∧ rate_limited_from net rq (sent log) j
     ∧ net (sent log + j)%nat rq = Some r
     ∧ status_code r ≠ 429 ∧ ¬ is_http_error (status_code r)
     ∧ log' = log ++ backoff_rounds rq 0 j ++ [EvRequest rq])
  ∧ (run = (Raise (HTTPError r), log') →
     ∃ j : nat,
       Z.of_nat j ≤ MAX_RETRIES
       ∧ rate_limited_from net rq (sent log) j
       ∧ net (sent log + j)%nat rq = Some r
       ∧ status_code r ≠ 429 ∧ is_http_error (status_code r)
       ∧ log' = log ++ backoff_rounds rq 0 j ++ [EvRequest rq]).
Proof.
  intros rq run.
  destruct (executor_shape net meth u hs ps js log) as (j & H429 & Hcases).
  fold rq run in Hcases.
  split; intros Hrun; rewrite Hrun in Hcases;
    destruct Hcases as [[_ Heq]|[(_ & _ & Heq)|(Hj & r' & Hr' & Hs' & Heq)]];
    try discriminate Heq;
    case_decide as He; try discriminate Heq;
    injection Heq as -> ->; by exists j.
Qed.

Lemma executor_outcome_sound_scenario :
  let ok := mkResponse 201 (Some PNone) in
  ∃ j : nat,
    rate_limited_from (net_of_statuses [429; 201]) sample_request 0 j
    ∧ net_of_statuses [429; 201] j sample_request = Some ok
    ∧ ¬ is_http_error (status_code ok).
Proof.
  intros ok.
  destruct (proj1 (executor_outcome_sound (net_of_statuses [429; 201]) "GET"
                     (BASE_URL +:+ "/venues") (Some HEADERS) None None [] ok
                     (backoff_rounds sample_request 0 1
                      ++ [EvRequest sample_request])))
    as (j & _ & H429 & Hnet & _ & Hok & _); [reflexivity|].
  by exists j.
Defined.

(** X3. The final [Exception] is raised exactly when each of the first
    [MAX_RETRIES + 1] requests is answered with status 429: a single
    different answer, or a transport failure, among them rules it out. *)
Theorem exhausted_iff_all_rate_limited net meth u hs ps js log :
  let rq := mkRequest meth u hs ps js in
  (handle_request_with_retries meth u hs ps js net log).1
  = Raise (Exception failed_msg)
  ↔ rate_limited_from net rq (sent log) (Z.to_nat (MAX_RETRIES + 1)).
Proof.
  intros rq. pose proof MAX_RETRIES_nonneg as Hmax.
  destruct (executor_shape net meth u hs ps js log) as (j & H429 & Hcases).
  fold rq in H429, Hcases.
  destruct Hcases as [[Hj Hrun]|[(Hj & Hnone & Hrun)|(Hj & r & Hr & Hs & Hrun)]];
    rewrite Hrun; simpl.
  - split; [intros _|done]. by replace (Z.to_nat (MAX_RETRIES + 1)) with j by lia.
  - split; [done|]. intros Hall.
    destruct (Hall j) as (ri & Hri & _); [lia|]. congruence.
  - split; [by case_decide|]. intros Hall.
    destruct (Hall j) as (ri & Hri & Hsi); [lia|]. congruence.
Qed.

Lemma exhausted_iff_all_rate_limited_scenario :
  (handle_request_with_retries "GET" (BASE_URL +:+ "/venues") (Some HEADERS)
     None None (net_of_statuses [429; 429; 429; 429; 429; 200]) []).1
  ≠ Raise (Exception failed_msg).
Proof.
  intros Hexn.
  apply (exhausted_iff_all_rate_limited
           (net_of_statuses [429; 429; 429; 429; 429; 200]) "GET"
           (BASE_URL +:+ "/venues") (Some HEADERS) None None []) in Hexn.
  destruct (Hexn 5%nat) as (ri & Hri & Hsi); [unfold MAX_RETRIES; lia|].
  simpl in Hri. injection Hri as <-. simpl in Hsi. lia.
Defined.

Lemma total_sleep_rounds_then rq j rest :
  sleeps_of rest = [] →
  total_sleep (backoff_rounds rq 0 j ++ rest)
  = RETRY_BACKOFF_FACTOR ^ Z.of_nat j - 1.
Proof.
  intros Hrest. unfold total_sleep.
  by rewrite sleeps_of_rounds_then, sum_backoff_delays.
Qed.

(** X4. One call never sleeps longer than
    [RETRY_BACKOFF_FACTOR ^ (MAX_RETRIES + 1) - 1 = 63] seconds in total;
    after [n] sleeps it has slept [RETRY_BACKOFF_FACTOR ^ n - 1] seconds. *)
Theorem total_sleep_bounded net meth u hs ps js log :
  ∃ evs,
    (handle_request_with_retries meth u hs ps js net log).2 = log ++ evs
    ∧ total_sleep evs
      = RETRY_BACKOFF_FACTOR ^ Z.of_nat (length (sleeps_of evs)) - 1
    ∧ 0 ≤ total_sleep evs ≤ RETRY_BACKOFF_FACTOR ^ (MAX_RETRIES + 1) - 1
    ∧ RETRY_BACKOFF_FACTOR ^ (MAX_RETRIES + 1) - 1 = 63.
Proof.
  set (rq := mkRequest meth u hs ps js).
  pose proof MAX_RETRIES_nonneg as Hmax.
  assert (Hgoal : ∀ (j : nat) rest,
            Z.of_nat j ≤ MAX_RETRIES + 1 → sleeps_of rest = [] →
            let evs := backoff_rounds rq 0 j ++ rest in
            total_sleep evs
            = RETRY_BACKOFF_FACTOR ^ Z.of_nat (length (sleeps_of evs)) - 1
            ∧ 0 ≤ total_sleep evs ≤ RETRY_BACKOFF_FACTOR ^ (MAX_RETRIES + 1) - 1
            ∧ RETRY_BACKOFF_FACTOR ^ (MAX_RETRIES + 1) - 1 = 63).
  { intros j rest Hj Hrest evs. unfold evs.
    rewrite total_sleep_rounds_then, sleeps_of_rounds_then,
      length_backoff_delays by done.
    split_and!; [done| | |done].
    - assert (0 < RETRY_BACKOFF_FACTOR ^ Z.of_nat j);
        [apply Z.pow_pos_nonneg; unfold RETRY_BACKOFF_FACTOR; lia|lia].
    - assert (RETRY_BACKOFF_FACTOR ^ Z.of_nat j
              ≤ RETRY_BACKOFF_FACTOR ^ (MAX_RETRIES + 1));
        [apply Z.pow_le_mono_r; unfold RETRY_BACKOFF_FACTOR; lia|lia]. }
  destruct (executor_shape net meth u hs ps js log) as (j & _ & Hcases).
  fold rq in Hcases.
  destruct Hcases as [[Hj Hrun]|[(Hj & _ & Hrun)|(Hj & r & _ & _ & Hrun)]];
    rewrite Hrun; simpl.
  - exists (backoff_rounds rq 0 j). split; [done|].
    rewrite <-(app_nil_r (backoff_rounds rq 0 j)). apply Hgoal; [lia|done].
  - eexists. split; [done|]. apply Hgoal; [lia|done].
  - eexists. split; [done|]. apply Hgoal; [lia|done].
Qed.

(** X5. When the retries are exhausted, the last thing the call does before
    raising is to sleep [RETRY_BACKOFF_FACTOR ^ MAX_RETRIES = 32] seconds:
    no request follows that wait.  The call has then slept 63 seconds. *)
Theorem exhaustion_ends_with_sleep net meth u hs ps js log :
  let rq := mkRequest meth u hs ps js in
  rate_limited_from net rq (sent log) (Z.to_nat (MAX_RETRIES + 1)) →
  ∃ evs,
    handle_request_with_retries meth u hs ps js net log
    = (Raise (Exception failed_msg), log ++ evs)
    ∧ last evs = Some (EvSleep (RETRY_BACKOFF_FACTOR ^ MAX_RETRIES))
    ∧ RETRY_BACKOFF_FACTOR ^ MAX_RETRIES = 32
    ∧ total_sleep evs = 63.
Proof.
  intros rq H429. pose proof MAX_RETRIES_nonneg as Hmax.
  set (n := Z.to_nat (MAX_RETRIES + 1)) in *.
  exists (backoff_rounds rq 0 n). split_and!.
  - unfold handle_request_with_retries, handle_request_with_retries_fuel.
    replace loop_fuel with (n + 1)%nat by (unfold loop_fuel, n; lia).
    rewrite retry_loop_rounds by (done || lia).
    by rewrite retry_loop_exhausted by lia.
  - replace n with (S (Z.to_nat MAX_RETRIES)) by lia.
    rewrite backoff_rounds_S_end. unfold backoff_round.
    rewrite last_app. simpl. repeat f_equal; lia.
  - reflexivity.
  - rewrite <-(app_nil_r (backoff_rounds rq 0 n)).
    by rewrite total_sleep_rounds_then.
Qed.

Lemma exhaustion_ends_with_sleep_scenario :
  ∃ evs,
    handle_request_with_retries "GET" (BASE_URL +:+ "/venues") (Some HEADERS)
      None None (net_always (mkResponse 429 None)) []
    = (Raise (Exception failed_msg), evs)
    ∧ last evs = Some (EvSleep 32).
Proof.
  destruct (exhaustion_ends_with_sleep (net_always (mkResponse 429 None))
              "GET" (BASE_URL +:+ "/venues") (Some HEADERS) None None [])
    as (evs & Hrun & Hlast & _).
  - intros i _. by eexists.
  - exists evs. split; [exact Hrun|exact Hlast].
Defined.

(** X6. A transport failure is not retried: when a request gets no answer,
    after any number [j ≤ MAX_RETRIES] of rate-limited answers, the failure
    of [requests.request] leaves the executor at once, with that request as
    the last event. *)
Theorem transport_failure_not_retried net meth u hs ps js log (j : nat) :
  let rq := mkRequest meth u hs ps js in
  Z.of_nat j ≤ MAX_RETRIES →
  rate_limited_from net rq (sent log) j →
  net (sent log + j)%nat rq = None →
  handle_request_with_retries meth u hs ps js net log
  = (Raise RequestException, log ++ backoff_rounds rq 0 j ++ [EvRequest rq]).
Proof.
  intros rq Hj H429 Hnone.
  unfold handle_request_with_retries, handle_request_with_retries_fuel.
  rewrite (loop_fuel_split j) by lia.
  rewrite retry_loop_rounds by (done || lia).
  rewrite retry_loop_transport; [by rewrite <-app_assoc|lia|].
  rewrite sent_app. unfold sent at 2.
  by rewrite requests_of_backoff_rounds, length_replicate.
Qed.

Lemma transport_failure_not_retried_scenario :
  handle_request_with_retries "GET" (BASE_URL +:+ "/venues") (Some HEADERS)
    None None (net_of_statuses [429]) []
  = (Raise RequestException,
     backoff_rounds sample_request 0 1 ++ [EvRequest sample_request]).
Proof.
  apply (transport_failure_not_retried (net_of_statuses [429]) "GET"
           (BASE_URL +:+ "/venues") (Some HEADERS) None None [] 1%nat).
  - unfold MAX_RETRIES. simpl. lia.
  - intros [|i] Hi; [by eexists|lia].
  - reflexivity.
Defined.

(** ** Every endpoint on top of the executor *)

Lemma sent_rounds_then rq k :
  sent (backoff_rounds rq 0 k ++ [EvRequest rq]) = S k.
Proof.
  rewrite sent_app. unfold sent.
  rewrite requests_of_backoff_rounds, length_replicate. simpl. lia.
Qed.

Section answered_call.
Context (net : Network) (log : list Event) (k : nat) (r : Response).
Context (Hk : Z.of_nat k ≤ MAX_RETRIES).
Context (H429 : ∀ rq, rate_limited_from net rq (sent log) k).
Context (Hr : ∀ rq, net (sent log + k)%nat rq = Some r).
Context (Hs : status_code r ≠ 429).

Lemma answered_executor meth u hs ps js :
  let rq := mkRequest meth u hs ps js in
  handle_request_with_retries meth u hs ps js net log
  = (if decide (is_http_error (status_code r))
     then Raise (HTTPError r) else Return r,
     log ++ backoff_rounds rq 0 k ++ [EvRequest rq]).
Proof.
  intros rq. apply executor_answer_after_rounds; [done|apply H429|apply Hr|done].
Qed.

Lemma answered_json_call meth u hs ps js :
  let rq := mkRequest meth u hs ps js in
  (handle_request_with_retries meth u hs ps js ≫= response_json) net log
  = (if decide (is_http_error (status_code r)) then Raise (HTTPError r)
     else match json_body r with
          | Some v => Return v
          | None => Raise JSONDecodeError
          end,
     log ++ backoff_rounds rq 0 k ++ [EvRequest rq]).
Proof.
  intros rq. unfold mbind, IO_bind. rewrite answered_executor.
  case_decide; [done|]. unfold response_json. by destruct (json_body r).
Qed.

Lemma answered_status_call meth u hs ps js :
  let rq := mkRequest meth u hs ps js in
  (handle_request_with_retries meth u hs ps js
   ≫= λ response, mret (status_code response)) net log
  = (if decide (is_http_error (status_code r)) then Raise (HTTPError r)
     else Return (status_code r),
     log ++ backoff_rounds rq 0 k ++ [EvRequest rq]).
Proof.
  intros rq. unfold mbind, IO_bind. rewrite answered_executor.
  by case_decide.
Qed.
End answered_call.

Ltac each_endpoint :=
  unfold json_endpoints, remove_endpoints;
  repeat apply List.Forall_cons; try apply List.Forall_nil;
  unfold get_business_orgs, create_business_org, find_business_org,
    get_venues, create_venue, get_infrastructure_by_org,
    get_infrastructure_by_venue, get_infra_types, add_infrastructure,
    remove_business_org, remove_venue, remove_infrastructure.

(** X7. Whatever the endpoint and its arguments: after [k ≤ MAX_RETRIES]
    rate-limited answers, an answer that is no error and carries the JSON
    value [v] makes the function return [v], after [k + 1] requests and the
    [k] delays of the backoff. *)
Theorem json_endpoints_return_body (a b c d e f : PyVal) (id : Z)
    net log (k : nat) r v :
  Z.of_nat k ≤ MAX_RETRIES →
  (∀ rq, rate_limited_from net rq (sent log) k) →
  (∀ rq, net (sent log + k)%nat rq = Some r) →
  status_code r ≠ 429 →
  ¬ is_http_error (status_code r) →
  json_body r = Some v →
  Forall (λ call : IO PyVal, ∃ evs,
            call net log = (Return v, log ++ evs)
            ∧ sent evs = S k
            ∧ sleeps_of evs = backoff_delays k)
         (json_endpoints a b c d e f id).
Proof.
  intros Hk H429 Hr Hs Hok Hv.
  each_endpoint.
  all: eexists; split_and!;
    [rewrite (answered_json_call net log k r) by done;
     rewrite decide_False by done; rewrite Hv; reflexivity
    |apply sent_rounds_then
    |by apply sleeps_of_rounds_then].
Qed.

Lemma json_endpoints_return_body_scenario :
  let orgs := PList [PDict (dict [("orgId", PInt 318)])] in
  (get_business_orgs default_offset default_limit default_order
     default_order_by_org
     (λ n _, if decide (n = 0%nat) then Some (mkResponse 429 None)
             else Some (mkResponse 200 (Some orgs))) []).1
  = Return orgs.
Proof.
  intros orgs.
  set (net := λ (n : nat) (_ : Request),
                if decide (n = 0%nat) then Some (mkResponse 429 None)
                else Some (mkResponse 200 (Some orgs))).
  pose proof (json_endpoints_return_body default_offset default_limit
                default_order default_order_by_org PNone PNone 0 net [] 1
                (mkResponse 200 (Some orgs)) orgs) as Hall.
  apply Forall_cons in Hall as [(evs & Hrun & _) _].
  - by rewrite Hrun.
  - unfold MAX_RETRIES. simpl. lia.
  - intros rq [|i] Hi; [by eexists|lia].
  - done.
  - simpl. lia.
  - unfold is_http_error. simpl. lia.
  - done.
Defined.

(** X8. An answer that is no error but whose body is not JSON (a 204 with
    an empty body, say) makes every function that returns [response.json()]
    raise [JSONDecodeError], after the request has gone out; the three
    remove functions, which never read the body, return the status code. *)
Theorem answer_without_json_body (a b c d e f : PyVal) (id : Z)
    net log (k : nat) r :
  Z.of_nat k ≤ MAX_RETRIES →
  (∀ rq, rate_limited_from net rq (sent log) k) →
  (∀ rq, net (sent log + k)%nat rq = Some r) →
  status_code r ≠ 429 →
  ¬ is_http_error (status_code r) →
  json_body r = None →
  Forall (λ call : IO PyVal, ∃ evs,
            call net log = (Raise JSONDecodeError, log ++ evs)
            ∧ sent evs = S k)
         (json_endpoints a b c d e f id)
  ∧ Forall (λ call : IO Z, ∃ evs,
              call net log = (Return (status_code r), log ++ evs)
              ∧ sent evs = S k)
           (remove_endpoints id).
Proof.
  intros Hk H429 Hr Hs Hok Hv. split.
  - each_endpoint.
    all: eexists; split;
      [rewrite (answered_json_call net log k r) by done;
       rewrite decide_False by done; rewrite Hv; reflexivity
      |apply sent_rounds_then].
  - each_endpoint.
    all: eexists; split;
      [rewrite (answered_status_call net log k r) by done;
       rewrite decide_False by done; reflexivity
      |apply sent_rounds_then].
Qed.

Lemma answer_without_json_body_scenario :
  let net := net_always (mkResponse 204 None) in
  (create_venue (PInt 42) (PStr "Lobby") (PStr "1 Main St") net []).1
  = Raise JSONDecodeError
  ∧ (remove_venue 9 net []).1 = Return 204.
Proof.
  intros net.
  destruct (answer_without_json_body (PInt 42) (PStr "Lobby")
              (PStr "1 Main St") PNone PNone PNone 9 net [] 0
              (mkResponse 204 None)) as [Hjson Hremove].
  - unfold MAX_RETRIES. simpl. lia.
  - intros rq i Hi. lia.
  - done.
  - simpl. lia.
  - unfold is_http_error. simpl. lia.
  - done.
  - split.
    + apply (Forall_lookup_1 _ _ 4%nat (create_venue (PInt 42) (PStr "Lobby")
               (PStr "1 Main St"))) in Hjson as (evs & Hrun & _);
        [by rewrite Hrun|reflexivity].
    + apply (Forall_lookup_1 _ _ 1%nat (remove_venue 9)) in Hremove
        as (evs & Hrun & _); [by rewrite Hrun|reflexivity].
Defined.

(** X9. A client or server error other than 429 reaches the caller of every
    function that returns [response.json()] as the [HTTPError] that carries
    the response; the body is not read, whether it is JSON or not. *)
Theorem json_endpoints_http_error (a b c d e f : PyVal) (id : Z)
    net log (k : nat) r :
  Z.of_nat k ≤ MAX_RETRIES →
  (∀ rq, rate_limited_from net rq (sent log) k) →
  (∀ rq, net (sent log + k)%nat rq = Some r) →
  status_code r ≠ 429 →
  is_http_error (status_code r) →
  Forall (λ call : IO PyVal, ∃ evs,
            call net log = (Raise (HTTPError r), log ++ evs)
            ∧ sent evs = S k)
         (json_endpoints a b c d e f id).
Proof.
  intros Hk H429 Hr Hs Herr.
  each_endpoint.
  all: eexists; split;
    [rewrite (answered_json_call net log k r) by done;
     rewrite decide_True by done; reflexivity
    |apply sent_rounds_then].
Qed.

Lemma json_endpoints_http_error_scenario :
  let denied := mkResponse 403 (Some (PStr "forbidden")) in
  (get_infra_types (net_always denied) []).1 = Raise (HTTPError denied).
Proof.
  intros denied.
  pose proof (json_endpoints_http_error PNone PNone PNone PNone PNone PNone 0
                (net_always denied) [] 0 denied) as Hall.
  apply (Forall_lookup_1 _ _ 7%nat get_infra_types) in Hall
    as (evs & Hrun & _).
  - by rewrite Hrun.
  - unfold MAX_RETRIES. simpl. lia.
  - intros rq i Hi. lia.
  - done.
  - simpl. lia.
  - unfold is_http_error. simpl. lia.
  - reflexivity.
Defined.

Lemma exhausted_executor net log meth u hs ps js :
  let rq := mkRequest meth u hs ps js in
  rate_limited_from net rq (sent log) (Z.to_nat (MAX_RETRIES + 1)) →
  handle_request_with_retries meth u hs ps js net log
  = (Raise (Exception failed_msg),
     log ++ backoff_rounds rq 0 (Z.to_nat (MAX_RETRIES + 1))).
Proof.
  intros rq H429. pose proof MAX_RETRIES_nonneg as Hmax.
  unfold handle_request_with_retries, handle_request_with_retries_fuel.
  replace loop_fuel with (Z.to_nat (MAX_RETRIES + 1) + 1)%nat
    by (unfold loop_fuel; lia).
  rewrite retry_loop_rounds by (done || lia).
  by rewrite retry_loop_exhausted by lia.
Qed.

(** X10. Under lasting rate limiting every one of the twelve endpoint
    functions fails in the same way: with the final [Exception], after
    exactly [MAX_RETRIES + 1] requests. *)
Theorem endpoints_exhausted (a b c d e f : PyVal) (id : Z) net log :
  (∀ rq, rate_limited_from net rq (sent log) (Z.to_nat (MAX_RETRIES + 1))) →
  Forall (λ call : IO PyVal, ∃ evs,
            call net log = (Raise (Exception failed_msg), log ++ evs)
            ∧ Z.of_nat (sent evs) = MAX_RETRIES + 1)
         (json_endpoints a b c d e f id)
  ∧ Forall (λ call : IO Z, ∃ evs,
              call net log = (Raise (Exception failed_msg), log ++ evs)
              ∧ Z.of_nat (sent evs) = MAX_RETRIES + 1)
           (remove_endpoints id).
Proof.
  intros H429. pose proof MAX_RETRIES_nonneg as Hmax.
  split; each_endpoint.
  all: eexists; split;
    [apply bind_Raise, exhausted_executor, H429
    |unfold sent; rewrite requests_of_backoff_rounds, length_replicate; lia].
Qed.

Lemma endpoints_exhausted_scenario :
  (add_infrastructure (PInt 42) (PInt 9) (PInt 2) (PStr "00:11:22:33:44:55")
     (PStr "AP-1") (net_always (mkResponse 429 None)) []).1
  = Raise (Exception "Failed after 5 retries due to rate limiting.").
Proof.
  destruct (endpoints_exhausted (PInt 42) (PInt 9) (PInt 2)
              (PStr "00:11:22:33:44:55") (PStr "AP-1") PNone 0
              (net_always (mkResponse 429 None)) []) as [Hjson _].
  - intros rq i _. by eexists.
  - apply (Forall_lookup_1 _ _ 8%nat
             (add_infrastructure (PInt 42) (PInt 9) (PInt 2)
                (PStr "00:11:22:33:44:55") (PStr "AP-1"))) in Hjson
      as (evs & Hrun & _); [by rewrite Hrun|reflexivity].
Defined.

(** ** The requests that the endpoints build *)

Lemma sends_status meth u hs ps js :
  sends (handle_request_with_retries meth u hs ps js
         ≫= λ response, mret (status_code response))
        (mkRequest meth u hs ps js).
Proof.
  intros net log. rewrite bind_silent_log by done.
  apply handle_request_with_retries_sends.
Qed.

Lemma sends_unique {A} (m : IO A) rq1 rq2 :
  sends m rq1 → sends m rq2 → rq1 = rq2.
Proof.
  intros H1 H2.
  destruct (H1 (λ _ _, None) []) as (evs1 & Hlog1 & Hhd1 & _).
  destruct (H2 (λ _ _, None) []) as (evs2 & Hlog2 & Hhd2 & _).
  simpl in Hlog1, Hlog2. congruence.
Qed.

(** X11. Every request that [add_infrastructure] sends is a POST to
    [/infrastructure] without query parameters, whose body has exactly the
    nine keys of the source: the five arguments under their own keys (the
    first argument is the [orgId], the second the [venueId]), empty
    [serialNumber] and [assetTag], [sourceId = 1] and [realInfra = False]. *)
Theorem add_infrastructure_body
    (org_id venue_id infra_type_id mac_address infra_display_name : PyVal) :
  ∃ rq body,
    sends (add_infrastructure org_id venue_id infra_type_id mac_address
             infra_display_name) rq
    ∧ method rq = "POST"
    ∧ url rq = BASE_URL +:+ "/infrastructure"
    ∧ params rq = None
    ∧ json rq = Some body
    ∧ dom body = {["venueId"; "orgId"; "infraTypeId"; "macAddress";
                   "serialNumber"; "assetTag"; "infraDisplayName";
                   "sourceId"; "realInfra"]}
    ∧ body !! "orgId" = Some org_id
    ∧ body !! "venueId" = Some venue_id
    ∧ body !! "infraTypeId" = Some infra_type_id
    ∧ body !! "macAddress" = Some mac_address
    ∧ body !! "infraDisplayName" = Some infra_display_name
    ∧ body !! "serialNumber" = Some (PStr "")
    ∧ body !! "assetTag" = Some (PStr "")
    ∧ body !! "sourceId" = Some (PInt 1)
    ∧ body !! "realInfra" = Some (PBool false).
Proof.
  eexists (mkRequest _ _ _ _ (Some _)), _.
  split; [apply sends_json|].
  split_and!; reflexivity.
Qed.

(** X12. [find_business_org] asks what [get_business_orgs] asks, plus the
    search: same method, URL and headers, and its query parameters are
    those of [get_business_orgs] with the [search] key added, which
    [get_business_orgs] never sends. *)
Theorem find_extends_list (search_query offset limit order order_by : PyVal) :
  ∃ rq_list rq_find query_list query_find,
    sends (get_business_orgs offset limit order order_by) rq_list
    ∧ sends (find_business_org search_query offset limit order order_by) rq_find
    ∧ method rq_find = method rq_list
    ∧ url rq_find = url rq_list
    ∧ url rq_list = BASE_URL +:+ "/organization/317/child"
    ∧ headers rq_find = headers rq_list
    ∧ json rq_find = None ∧ json rq_list = None
    ∧ params rq_list = Some query_list
    ∧ params rq_find = Some query_find
    ∧ query_list !! "search" = None
    ∧ dom query_list = {["offset"; "limit"; "order"; "orderBy"]}
    ∧ query_find = <["search" := search_query]> query_list.
Proof.
  eexists (mkRequest _ _ _ (Some _) _), (mkRequest _ _ _ (Some _) _), _, _.
  split; [apply sends_json|]. split; [apply sends_json|].
  split_and!; reflexivity.
Qed.

(** X13. The one optional parameter of [get_venues]: the [search] key is
    sent with the query exactly when the query is truthy; the five other
    keys are sent with the given values in either case. *)
Theorem get_venues_query
    (org_id offset limit order order_by search_query : PyVal) :
  ∃ rq query,
    sends (get_venues org_id offset limit order order_by search_query) rq
    ∧ method rq = "GET"
    ∧ url rq = BASE_URL +:+ "/venues"
    ∧ json rq = None
    ∧ params rq = Some query
    ∧ query !! "search"
      = (if truthy search_query then Some search_query else None)
    ∧ query !! "orgId" = Some org_id
    ∧ query !! "offset" = Some offset
    ∧ query !! "limit" = Some limit
    ∧ query !! "order" = Some order
    ∧ query !! "orderBy" = Some order_by
    ∧ size query = (if truthy search_query then 6 else 5)%nat.
Proof.
  unfold get_venues.
  destruct (truthy search_query);
    (eexists (mkRequest _ _ _ (Some _) _), _;
     split; [apply sends_json|]; split_and!; reflexivity).
Qed.

(** X14. Every request of every endpoint carries the module's [HEADERS]:
    the bearer token under [Authorization] and the JSON content type.  A
    GET never has a JSON body, a POST always has one and never has query
    parameters, and a DELETE has neither. *)
Theorem endpoints_request_discipline (a b c d e f : PyVal) (id : Z) :
  Forall (λ call : IO PyVal, ∃ rq,
            sends call rq
            ∧ headers rq = Some HEADERS
            ∧ ((method rq = "GET" ∧ json rq = None)
               ∨ (method rq = "POST" ∧ params rq = None ∧ is_Some (json rq))))
         (json_endpoints a b c d e f id)
  ∧ Forall (λ call : IO Z, ∃ rq,
              sends call rq
              ∧ headers rq = Some HEADERS
              ∧ method rq = "DELETE" ∧ params rq = None ∧ json rq = None)
           (remove_endpoints id)
  ∧ HEADERS !! "Authorization" = Some (PStr ("Bearer " +:+ BEARER_TOKEN))
  ∧ HEADERS !! "Content-Type" = Some (PStr "application/json")
  ∧ dom HEADERS = {["Authorization"; "Content-Type"]}.
Proof.
  split_and!; try reflexivity.
  - each_endpoint.
    all: eexists; split; [apply sends_json|]; split; [reflexivity|].
    all: first [by left | right; split_and!; [done|done|by eexists]].
  - each_endpoint.
    all: eexists; split; [apply sends_status|]; by split_and!.
Qed.

Lemma id_url_neq (base path : string) (id1 id2 : Z) :
  id1 ≠ id2 → base +:+ path +:+ pretty id1 ≠ base +:+ path +:+ pretty id2.
Proof.
  intros Hne Heq. apply Hne.
  by apply (inj pretty), (inj (String.app path)), (inj (String.app base)).
Qed.

(** X15. The functions that put an id into the URL address different
    resources by different URLs: two different ids never give the same URL,
    and the three remove functions never share a URL with each other,
    whatever the ids. *)
Theorem id_urls_distinct (id1 id2 : Z) (rq1 rq2 : Request) :
  (id1 ≠ id2 →
   (sends (remove_business_org id1) rq1 → sends (remove_business_org id2) rq2 →
    url rq1 ≠ url rq2)
   ∧ (sends (remove_venue id1) rq1 → sends (remove_venue id2) rq2 →
      url rq1 ≠ url rq2)
   ∧ (sends (remove_infrastructure id1) rq1 →
      sends (remove_infrastructure id2) rq2 → url rq1 ≠ url rq2)
   ∧ (sends (get_infrastructure_by_org id1) rq1 →
      sends (get_infrastructure_by_org id2) rq2 → url rq1 ≠ url rq2)
   ∧ (sends (get_infrastructure_by_venue id1) rq1 →
      sends (get_infrastructure_by_venue id2) rq2 → url rq1 ≠ url rq2))
  ∧ (sends (remove_business_org id1) rq1 → sends (remove_venue id2) rq2 →
     url rq1 ≠ url rq2)
  ∧ (sends (remove_business_org id1) rq1 →
     sends (remove_infrastructure id2) rq2 → url rq1 ≠ url rq2)
  ∧ (sends (remove_venue id1) rq1 → sends (remove_infrastructure id2) rq2 →
     url rq1 ≠ url rq2).
Proof.
  assert (Hstatus : ∀ meth u hs ps js rq,
            sends (handle_request_with_retries meth u hs ps js
                   ≫= λ response, mret (status_code response)) rq →
            url rq = u).
  { intros meth u hs ps js rq Hrq.
    by rewrite (sends_unique _ _ _ Hrq (sends_status meth u hs ps js)). }
  assert (Hjson : ∀ meth u hs ps js rq,
            sends (handle_request_with_retries meth u hs ps js
                   ≫= response_json) rq →
            url rq = u).
  { intros meth u hs ps js rq Hrq.
    by rewrite (sends_unique _ _ _ Hrq (sends_json meth u hs ps js)). }
  split; [intros Hne|]; split_and!; intros H1 H2.
  1-3: apply Hstatus in H1, H2; rewrite H1, H2; by apply id_url_neq.
  1-2: apply Hjson in H1, H2; rewrite H1, H2; by apply id_url_neq.
  all: apply Hstatus in H1, H2; rewrite H1, H2; intros Heq;
       apply (inj (String.app BASE_URL)) in Heq; discriminate Heq.
Qed.

Lemma id_urls_distinct_scenario :
  BASE_URL +:+ "/organization/7" ≠ BASE_URL +:+ "/organization/8"
  ∧ BASE_URL +:+ "/venues/7" ≠ BASE_URL +:+ "/infrastructure/7".
Proof.
  set (rq path := mkRequest "DELETE" (BASE_URL +:+ path) (Some HEADERS) None None).
  split.
  - apply (proj1 (proj1 (id_urls_distinct 7 8 (rq "/organization/7")
                           (rq "/organization/8")) ltac:(lia)));
      apply sends_status.
  - apply (proj2 (proj2 (proj2 (id_urls_distinct 7 7 (rq "/venues/7")
                                  (rq "/infrastructure/7")))));
      apply sends_status.
Defined.

(** ** The script entry point *)

Lemma json_call_finishes net meth u hs ps js log :
  ∃ out evs,
    (handle_request_with_retries meth u hs ps js ≫= response_json) net log
    = (out, log ++ evs)
    ∧ out ≠ OutOfFuel
    ∧ 1 ≤ Z.of_nat (sent evs) ≤ MAX_RETRIES + 1.
Proof.
  pose proof MAX_RETRIES_nonneg as Hmax.
  destruct (retry_loop_total net (mkRequest meth u hs ps js) loop_fuel 0 log)
    as (out & evs & Hrun & _ & Hhd & Hsent & Hpost).
  { unfold loop_fuel. lia. }
  assert (1 ≤ Z.of_nat (sent evs)).
  { specialize (Hhd Hmax). destruct evs as [|ev evs]; [done|].
    simpl in Hhd. injection Hhd as ->. unfold sent. simpl. lia. }
  unfold mbind, IO_bind, handle_request_with_retries,
    handle_request_with_retries_fuel. rewrite Hrun.
  destruct out as [r|e|]; [| |done].
  - unfold response_json. destruct (json_body r);
      eexists _, evs; (split_and!; [reflexivity|done|lia|lia]).
  - exists (Raise e), evs. split_and!; [done|done|lia|lia].
Qed.

(** X16. The script never ends with an exception, whatever the network
    does: [main] returns normally and its last action is to print one line,
    the organizations if [get_business_orgs] returned them and the error
    otherwise.  It sends what [get_business_orgs] sends, at most
    [MAX_RETRIES + 1] requests. *)
Theorem main_never_raises
    (str_of_value : PyVal → string) (str_of_library_error : Exn → string)
    net log :
  let call := get_business_orgs default_offset default_limit default_order
                default_order_by_org in
  ∃ evs line,
    main str_of_value str_of_library_error net log
    = (Return (), log ++ evs ++ [EvPrint line])
    ∧ (call net log).2 = log ++ evs
    ∧ 1 ≤ Z.of_nat (sent evs) ≤ MAX_RETRIES + 1
    ∧ (call net log).1 ≠ OutOfFuel
    ∧ (∀ orgs, (call net log).1 = Return orgs →
         line = "Business Orgs: " +:+ str_of_value orgs)
    ∧ (∀ e, (call net log).1 = Raise e →
         line = "An error occurred: " +:+ str_of_exn str_of_library_error e).
Proof.
  intros call.
  assert (Hcall : ∃ out evs,
            call net log = (out, log ++ evs)
            ∧ out ≠ OutOfFuel
            ∧ 1 ≤ Z.of_nat (sent evs) ≤ MAX_RETRIES + 1)
    by apply json_call_finishes.
  destruct Hcall as (out & evs & Hrun & Hout & Hsent).
  subst call. unfold main, try_except, mbind, IO_bind. rewrite Hrun.
  destruct out as [orgs|e|]; [| |done].
  - exists evs, ("Business Orgs: " +:+ str_of_value orgs).
    unfold print, emit. rewrite <-app_assoc.
    split_and!; [done|done|lia|lia|done|by intros ? [= <-]|done].
  - exists evs, ("An error occurred: " +:+ str_of_exn str_of_library_error e).
    unfold print, emit. rewrite <-app_assoc.
    split_and!; [done|done|lia|lia|done|done|by intros ? [= <-]].
Qed.

(** X17. Under lasting rate limiting the script prints the six notices of
    the backoff, sleeps 63 seconds in all, and ends normally with the line
    that reports the final [Exception]; the message says 5 retries, the
    requests sent are [MAX_RETRIES + 1 = 6]. *)
Theorem main_rate_limited
    (str_of_value : PyVal → string) (str_of_library_error : Exn → string)
    net log :
  (∀ rq, rate_limited_from net rq (sent log) (Z.to_nat (MAX_RETRIES + 1))) →
  ∃ evs,
    main str_of_value str_of_library_error net log = (Return (), log ++ evs)
    ∧ last evs
      = Some (EvPrint
          "An error occurred: Failed after 5 retries due to rate limiting.")
    ∧ sent evs = 6%nat
    ∧ total_sleep evs = 63
    ∧ length (prints_of evs) = 7%nat.
Proof.
  intros H429.
  eexists (backoff_rounds _ 0 (Z.to_nat (MAX_RETRIES + 1)) ++ [EvPrint _]).
  split_and!.
  - unfold main, try_except, get_business_orgs.
    unfold mbind at 1, IO_bind at 1.
    erewrite bind_Raise; [|by apply exhausted_executor, H429].
    unfold print, emit. by rewrite <-app_assoc.
  - by rewrite last_snoc.
  - reflexivity.
  - reflexivity.
  - reflexivity.
Qed.

Lemma main_rate_limited_scenario :
  ∃ evs,
    main (λ _, "") (λ _, "") (net_always (mkResponse 429 None)) []
    = (Return (), evs)
    ∧ last evs
      = Some (EvPrint
          "An error occurred: Failed after 5 retries due to rate limiting.").
Proof.
  destruct (main_rate_limited (λ _, "") (λ _, "")
              (net_always (mkResponse 429 None)) [])
    as (evs & Hrun & Hlast & _).
  - intros rq i _. by eexists.
  - exists evs. split; [exact Hrun|exact Hlast].
Defined.
